(** * Verification of the audio capture engine of windows-whisper

    Shallow embedding of [src/audio.py] (class [AudioRecorder]) and of the
    recording defaults of [config.py].

    - Part I   : the level meter [_calculate_audio_level] (NumPy on int16).
    - Part II  : the recorder object, the audio device and the file system,
                 with Python exceptions as an explicit result.
    - Part III : theorems. *)

From Stdlib Require Import ZArith List Lia Reals Lra QArith.
From Stdlib Require Import Strings.Byte.
From stdpp Require Import gmap strings.
Import ListNotations.

(* ===================================================================== *)
(** * Part I.  The level meter                                            *)
(* ===================================================================== *)

Module Level.

Local Open Scope Z_scope.

(** A frame as delivered by [stream.read]: a Python [bytes] object. *)
Definition bytes := list byte.

(** ** NumPy on 16-bit integers *)

(** Value of a byte, [0 .. 255]. *)
Definition byte_val (b : byte) : Z := Z.of_N (Byte.to_N b).

(** Two's-complement reading of a 16-bit pattern, the value an [int16]
    array element holds. *)
Definition wrap16 (z : Z) : Z :=
  let u := z mod 65536 in
  if u <? 32768 then u else u - 65536.

(** One little-endian [int16] sample from its two bytes. *)
Definition int16_le (lo hi : byte) : Z :=
  wrap16 (byte_val lo + 256 * byte_val hi).

(** [np.frombuffer(data, dtype=np.int16)]: consecutive byte pairs; a buffer
    whose size is not a multiple of the element size raises [ValueError]
    ([None] here). *)
Fixpoint frombuffer (data : bytes) : option (list Z) :=
  match data with
  | [] => Some []
  | [_] => None
  | lo :: hi :: rest =>
      match frombuffer rest with
      | Some samples => Some (int16_le lo hi :: samples)
      | None => None
      end
  end.

(** [np.square] on an [int16] array: the result array is [int16] too, so
    every square is reduced modulo 2^16 (NumPy integer arrays wrap
    silently). *)
Definition np_square (a : list Z) : list Z :=
  map (fun x => wrap16 (x * x)) a.

(** Sum of an integer array. *)
Definition zsum (a : list Z) : Z := fold_right Z.add 0 a.

(** ** Floating-point values

    A [float64] is modelled as a real number or NaN: the arithmetic is
    exact, rounding is left out; NaN, its comparisons and its propagation
    are as IEEE 754 and Python define them.  What [_calculate_audio_level]
    decides does not depend on rounding: the sum of the reduced squares is
    an integer that a float holds exactly, the mean has the sign of that
    sum, and the root of a mean of at most 32767 is below 182, far from
    the noise floor (see [rms_of_cases]). *)
Inductive float64 : Type :=
  | NaN : float64
  | Fin : R -> float64.

(** [np.mean] of an integer array: accumulated and divided in [float64];
    the mean of an empty array is NaN (0/0, with a warning). *)
Definition np_mean (a : list Z) : float64 :=
  match a with
  | [] => NaN
  | _ => Fin (IZR (zsum a) / IZR (Z.of_nat (length a)))%R
  end.

(** [np.sqrt]: NaN for a negative argument (with a warning, no exception). *)
Definition np_sqrt (x : float64) : float64 :=
  match x with
  | NaN => NaN
  | Fin r => if Rlt_dec r 0%R then NaN else Fin (sqrt r)
  end.

(** [x < y]: false as soon as one side is NaN. *)
Definition flt (x y : float64) : bool :=
  match x, y with
  | Fin a, Fin b => if Rlt_dec a b then true else false
  | _, _ => false
  end.

Definition fsub (x y : float64) : float64 :=
  match x, y with
  | Fin a, Fin b => Fin (a - b)%R
  | _, _ => NaN
  end.

(** Division by a non-zero constant (the only use in the source). *)
Definition fdiv (x y : float64) : float64 :=
  match x, y with
  | Fin a, Fin b => Fin (a / b)%R
  | _, _ => NaN
  end.

(** Python's [min(a, b)]: [b] if [b < a], otherwise [a]; with [b] NaN the
    comparison is false and [a] is returned. *)
Definition py_min (a b : float64) : float64 :=
  if flt b a then b else a.

(** [x ** y] for a positive exponent [y]: [0 ** y = 0], the real power for a
    positive base, NaN for NaN or a negative base. *)
Definition fpow (x : float64) (y : R) : float64 :=
  match x with
  | NaN => NaN
  | Fin r =>
      if Rlt_dec 0%R r then Fin (Rpower r y)
      else if Rlt_dec r 0%R then NaN else Fin 0%R
  end.

Definition noise_threshold : R := 300%R.

(** Lines 276-286: the mapping from the RMS value to the level. *)
Definition level_of_rms (rms : float64) : float64 :=
  if flt rms (Fin noise_threshold) then Fin 0%R
  else
    let level :=
      py_min (Fin 1%R)
             (fdiv (fsub rms (Fin noise_threshold))
                   (Fin (32768 - noise_threshold)%R)) in
    fpow level (7 / 10)%R.

(** Line 270: [np.sqrt(np.mean(np.square(audio_data)))]. *)
Definition rms_of (audio_data : list Z) : float64 :=
  np_sqrt (np_mean (np_square audio_data)).

(** [AudioRecorder._calculate_audio_level]: any exception (here the
    [ValueError] of [np.frombuffer]) is caught and yields [0.0]. *)
Definition _calculate_audio_level (data : bytes) : float64 :=
  match frombuffer data with
  | Some audio_data => level_of_rms (rms_of audio_data)
  | None => Fin 0%R
  end.

(** ** The level as the specification words it

    RMS amplitude of the samples themselves (no 16-bit reduction of the
    squares), then the same mapping. *)
Definition true_rms (audio_data : list Z) : float64 :=
  np_sqrt (np_mean (map (fun x => x * x) audio_data)).

Definition spec_level (data : bytes) : float64 :=
  match frombuffer data with
  | Some audio_data => level_of_rms (true_rms audio_data)
  | None => Fin 0%R
  end.

(** The RMS amplitude of a frame: of its samples, as integers. *)
Definition rms_amplitude (data : bytes) : float64 :=
  match frombuffer data with
  | Some audio_data => true_rms audio_data
  | None => NaN
  end.

(** [x <= y] on levels, false when one side is NaN. *)
Definition fle (x y : float64) : Prop :=
  match x, y with
  | Fin a, Fin b => (a <= b)%R
  | _, _ => False
  end.

(** Encoding of samples as little-endian byte pairs (what the device
    delivers for [paInt16]). *)
Definition byte_of_Z (z : Z) : byte :=
  match Byte.of_N (Z.to_N (z mod 256)) with
  | Some b => b
  | None => x00
  end.

Definition sample_bytes (x : Z) : bytes :=
  let u := x mod 65536 in
  [byte_of_Z u; byte_of_Z (u / 256)].

Definition frame_of_samples (samples : list Z) : bytes :=
  concat (map sample_bytes samples).

End Level.

(* ===================================================================== *)
(** * Part II.  The recorder, the audio device and the file system        *)
(* ===================================================================== *)

Import Level.

(** ** config.py: recording defaults *)

Definition MAX_RECORDING_SECONDS : Z := 300.
Definition SAMPLE_RATE : Z := 16000.
Definition CHANNELS : Z := 1.

(** ** The outside world *)

(** A PortAudio stream, as returned by [PyAudio.open]. *)
Definition handle := nat.

(** A caller-supplied callable ([callback_fn], [level_callback]). *)
Definition callback := nat.

(** What one call into the outside world does: it succeeds (a device read
    then delivers [data]) or it raises a Python [Exception]. *)
Inductive outcome : Type :=
  | Good (data : bytes)
  | Bad.

(** The calls the recorder makes. *)
Inductive call : Type :=
  | PyAudioNew
  | PaOpen (channels rate frames_per_buffer : Z)
  | StreamRead (h : handle) (n : Z)
  | StopStream (h : handle)
  | StreamClose (h : handle)
  | Invoke (f : callback)
  | InvokeLevel (f : callback) (data : bytes)
  | WaveOpen (path : string)
  | WaveWriteFrames (path : string)
  | WaveClose (path : string).

(** A call with whether it returned ([true]) or raised ([false]). *)
Definition event : Type := (call * bool)%type.

(** The header fields and the data chunk of a WAV file. *)
Record wav_file : Type := {
  wav_nchannels : Z;
  wav_sampwidth : Z;
  wav_framerate : Z;
  wav_payload : bytes
}.

(** A file: created or truncated by [open(path, 'wb')] and not (yet) a
    complete WAV container, or a complete one. *)
Inductive file : Type :=
  | Incomplete
  | Wav (w : wav_file).

(** The environment: the streams that are open, the file system, and the
    script of what is to come.  Calls and readings of the clock are
    numbered together by [cursor]: a call numbered [k] does what
    [oracle k] says, a reading of [time.time()] numbered [k] is
    [clock k]. *)
Record world : Type := {
  open_streams : gset handle;
  next_handle : handle;
  fs : gmap string file;
  oracle : nat -> outcome;
  clock : nat -> Q;
  cursor : nat;
  trace : list event
}.

(** ** The [AudioRecorder] object *)

Record recorder : Type := {
  sample_rate : Z;
  channels : Z;
  chunk : Z;
  pyaudio : bool;                 (* [false]: [self.pyaudio is None] *)
  stream : option handle;
  frames : list bytes;
  is_recording : bool;
  recording_thread : option nat;
  max_seconds : Z;
  level_callback : option callback
}.

(** Where a thread running [_record] stands. *)
Inductive pc : Type :=
  | Entry       (* not yet run *)
  | Loop        (* at the test of [while self.is_recording] *)
  | Done.       (* returned *)

(** The locals of a thread running [_record]. *)
Record thread : Type := {
  th_pc : pc;
  start_time : Q;
  frame_count : nat
}.

Record state : Type := {
  self : recorder;
  env : world;
  threads : list thread
}.

(** Field updates. *)

Definition with_self (f : recorder -> recorder) (s : state) : state :=
  {| self := f (self s); env := env s; threads := threads s |}.

Definition with_env (f : world -> world) (s : state) : state :=
  {| self := self s; env := f (env s); threads := threads s |}.

Definition with_threads (f : list thread -> list thread) (s : state) : state :=
  {| self := self s; env := env s; threads := f (threads s) |}.

Definition set_pyaudio (v : bool) (r : recorder) : recorder :=
  {| sample_rate := sample_rate r; channels := channels r; chunk := chunk r;
     pyaudio := v; stream := stream r; frames := frames r;
     is_recording := is_recording r; recording_thread := recording_thread r;
     max_seconds := max_seconds r; level_callback := level_callback r |}.

Definition set_stream (v : option handle) (r : recorder) : recorder :=
  {| sample_rate := sample_rate r; channels := channels r; chunk := chunk r;
     pyaudio := pyaudio r; stream := v; frames := frames r;
     is_recording := is_recording r; recording_thread := recording_thread r;
     max_seconds := max_seconds r; level_callback := level_callback r |}.

Definition set_frames (v : list bytes) (r : recorder) : recorder :=
  {| sample_rate := sample_rate r; channels := channels r; chunk := chunk r;
     pyaudio := pyaudio r; stream := stream r; frames := v;
     is_recording := is_recording r; recording_thread := recording_thread r;
     max_seconds := max_seconds r; level_callback := level_callback r |}.

Definition set_is_recording (v : bool) (r : recorder) : recorder :=
  {| sample_rate := sample_rate r; channels := channels r; chunk := chunk r;
     pyaudio := pyaudio r; stream := stream r; frames := frames r;
     is_recording := v; recording_thread := recording_thread r;
     max_seconds := max_seconds r; level_callback := level_callback r |}.

Definition set_recording_thread (v : option nat) (r : recorder) : recorder :=
  {| sample_rate := sample_rate r; channels := channels r; chunk := chunk r;
     pyaudio := pyaudio r; stream := stream r; frames := frames r;
     is_recording := is_recording r; recording_thread := v;
     max_seconds := max_seconds r; level_callback := level_callback r |}.

Definition set_max_seconds (v : Z) (r : recorder) : recorder :=
  {| sample_rate := sample_rate r; channels := channels r; chunk := chunk r;
     pyaudio := pyaudio r; stream := stream r; frames := frames r;
     is_recording := is_recording r; recording_thread := recording_thread r;
     max_seconds := v; level_callback := level_callback r |}.

Definition set_level_callback (v : option callback) (r : recorder) : recorder :=
  {| sample_rate := sample_rate r; channels := channels r; chunk := chunk r;
     pyaudio := pyaudio r; stream := stream r; frames := frames r;
     is_recording := is_recording r; recording_thread := recording_thread r;
     max_seconds := max_seconds r; level_callback := v |}.

Definition set_open_streams (v : gset handle) (w : world) : world :=
  {| open_streams := v; next_handle := next_handle w; fs := fs w;
     oracle := oracle w; clock := clock w; cursor := cursor w;
     trace := trace w |}.

Definition set_next_handle (v : handle) (w : world) : world :=
  {| open_streams := open_streams w; next_handle := v; fs := fs w;
     oracle := oracle w; clock := clock w; cursor := cursor w;
     trace := trace w |}.

Definition set_fs (v : gmap string file) (w : world) : world :=
  {| open_streams := open_streams w; next_handle := next_handle w; fs := v;
     oracle := oracle w; clock := clock w; cursor := cursor w;
     trace := trace w |}.

Definition set_cursor (v : nat) (w : world) : world :=
  {| open_streams := open_streams w; next_handle := next_handle w; fs := fs w;
     oracle := oracle w; clock := clock w; cursor := v;
     trace := trace w |}.

Definition set_trace (v : list event) (w : world) : world :=
  {| open_streams := open_streams w; next_handle := next_handle w; fs := fs w;
     oracle := oracle w; clock := clock w; cursor := cursor w;
     trace := v |}.

(** ** Python control flow: state and exceptions *)

(** The result of running a piece of Python: a value, or a raised
    [Exception].  The state reached is kept in both cases. *)
Inductive result (A : Type) : Type :=
  | Returns (a : A)
  | Raises.
Arguments Returns {A} a.
Arguments Raises {A}.

Definition M (A : Type) : Type := state -> result A * state.

Definition ret {A} (a : A) : M A := fun s => (Returns a, s).

Definition raise {A} : M A := fun s => (Raises, s).

Definition bind {A B} (m : M A) (k : A -> M B) : M B :=
  fun s =>
    match m s with
    | (Returns a, s') => k a s'
    | (Raises, s') => (Raises, s')
    end.

Notation "x <- m ;; k" := (bind m (fun x => k))
  (at level 100, m at next level, right associativity).
Notation "m ;;; k" := (bind m (fun _ => k))
  (at level 100, right associativity).

(** [try: body  except Exception: handler]. *)
Definition try_except {A} (body handler : M A) : M A :=
  fun s =>
    match body s with
    | (Returns a, s') => (Returns a, s')
    | (Raises, s') => handler s'
    end.

Definition get : M state := fun s => (Returns s, s).
Definition modify (f : state -> state) : M unit := fun s => (Returns tt, f s).
Definition get_self : M recorder := fun s => (Returns (self s), s).
Definition assign (f : recorder -> recorder) : M unit := modify (with_self f).

(** One call into the outside world: takes the next entry of the script
    and records the call. *)
Definition external (c : call) : M outcome :=
  fun s =>
    let w := env s in
    let o := oracle w (cursor w) in
    let ok := match o with Good _ => true | Bad => false end in
    (Returns o,
     with_env (fun w => set_trace (trace w ++ [(c, ok)])
                          (set_cursor (S (cursor w)) w)) s).

(** [time.time()]. *)
Definition time_time : M Q :=
  fun s =>
    let w := env s in
    (Returns (clock w (cursor w)), with_env (set_cursor (S (cursor w))) s).

(** ** PortAudio through PyAudio *)

(** [pyaudio.PyAudio()]. *)
Definition PyAudio_new : M unit :=
  o <- external PyAudioNew ;;
  match o with Good _ => ret tt | Bad => raise end.

(** [self.pyaudio.open(format=paInt16, channels, rate, input=True,
    frames_per_buffer)]: a new open stream, or an exception. *)
Definition pa_open (nchannels rate frames_per_buffer : Z) : M handle :=
  o <- external (PaOpen nchannels rate frames_per_buffer) ;;
  match o with
  | Good _ =>
      s <- get ;;
      let h := next_handle (env s) in
      modify (with_env (fun w =>
        set_next_handle (S h) (set_open_streams ({[h]} ∪ open_streams w) w))) ;;;
      ret h
  | Bad => raise
  end.

Definition is_open (h : handle) (s : state) : bool :=
  bool_decide (h ∈ open_streams (env s)).

(** [stream.read(n)]: raises on a stream that is not open. *)
Definition stream_read (h : handle) (n : Z) : M bytes :=
  s <- get ;;
  if is_open h s then
    o <- external (StreamRead h n) ;;
    match o with Good data => ret data | Bad => raise end
  else raise.

(** [stream.stop_stream()]. *)
Definition stop_stream (h : handle) : M unit :=
  s <- get ;;
  if is_open h s then
    o <- external (StopStream h) ;;
    match o with Good _ => ret tt | Bad => raise end
  else raise.

(** [stream.close()]: on success the stream is no longer open. *)
Definition stream_close (h : handle) : M unit :=
  s <- get ;;
  if is_open h s then
    o <- external (StreamClose h) ;;
    match o with
    | Good _ =>
        modify (with_env (fun w =>
          set_open_streams (open_streams w ∖ {[h]}) w))
    | Bad => raise
    end
  else raise.

(** Calling a caller-supplied callable, which may raise. *)
Definition invoke (f : callback) : M unit :=
  o <- external (Invoke f) ;;
  match o with Good _ => ret tt | Bad => raise end.

(** [self.level_callback(self._calculate_audio_level(data))]: the level
    handed over is [_calculate_audio_level data]. *)
Definition invoke_level (f : callback) (data : bytes) : M unit :=
  o <- external (InvokeLevel f data) ;;
  match o with Good _ => ret tt | Bad => raise end.

(** ** The [wave] module *)

(** [wave.open(path, 'wb')]: creates or truncates the file. *)
Definition wave_open (path : string) : M unit :=
  o <- external (WaveOpen path) ;;
  match o with
  | Good _ => modify (with_env (fun w => set_fs (<[path := Incomplete]> (fs w)) w))
  | Bad => raise
  end.

(** [Wave_write.setnchannels]: [wave.Error] below 1. *)
Definition setnchannels (n : Z) : M Z :=
  if (n <? 1)%Z then raise else ret n.

(** [Wave_write.setsampwidth]: [wave.Error] outside [1 .. 4]. *)
Definition setsampwidth (n : Z) : M Z :=
  if ((n <? 1) || (4 <? n))%Z then raise else ret n.

(** [Wave_write.setframerate]: [wave.Error] for a rate that is not positive. *)
Definition setframerate (n : Z) : M Z :=
  if (n <=? 0)%Z then raise else ret n.

(** The header is packed with [struct] as
    [<L4s4sLHHLLHH4s] and [<L]: channel count and block align are 16-bit
    fields, sample rate, byte rate and the lengths 32-bit fields. *)
Definition header_fits (nch sw rate len : Z) : bool :=
  ((nch <=? 65535) && (rate <=? 4294967295)
   && (nch * rate * sw <=? 4294967295) && (nch * sw <=? 65535)
   && (36 + len <=? 4294967295))%Z.

(** [Wave_write.writeframes(data)]: writes header and data;
    [struct.error] when a header field does not fit, [OSError] when the
    write fails. *)
Definition writeframes (path : string) (nch sw rate : Z) (data : bytes)
  : M wav_file :=
  if header_fits nch sw rate (Z.of_nat (length data)) then
    o <- external (WaveWriteFrames path) ;;
    match o with
    | Good _ =>
        ret {| wav_nchannels := nch; wav_sampwidth := sw;
               wav_framerate := rate; wav_payload := data |}
    | Bad => raise
    end
  else raise.

(** [Wave_write.close()]: flushes; from then on the file is the complete
    container. *)
Definition wave_close (path : string) (content : wav_file) : M unit :=
  o <- external (WaveClose path) ;;
  match o with
  | Good _ => modify (with_env (fun w => set_fs (<[path := Wav content]> (fs w)) w))
  | Bad => raise
  end.

(** ** The methods of [AudioRecorder] *)

(** [AudioRecorder.__init__]. *)
Definition __init__ (sample_rate channels chunk : Z) (w : world) : state :=
  snd (try_except
         (PyAudio_new ;;; assign (set_pyaudio true))
         (assign (set_pyaudio false))
         {| self := {| sample_rate := sample_rate; channels := channels;
                       chunk := chunk; pyaudio := false; stream := None;
                       frames := []; is_recording := false;
                       recording_thread := None; max_seconds := 300;
                       level_callback := None |};
            env := w; threads := [] |}).

(** [AudioRecorder.pre_initialize]. *)
Definition pre_initialize : M bool :=
  me <- get_self ;;
  initialised <-
    (if pyaudio me then ret true
     else try_except (PyAudio_new ;;; assign (set_pyaudio true) ;;; ret true)
                     (ret false)) ;;
  if negb initialised then ret false
  else
    try_except
      (me <- get_self ;;
       test_stream <- pa_open (channels me) (sample_rate me) (chunk me) ;;
       _ <- stream_read test_stream (chunk me) ;;
       stop_stream test_stream ;;;
       stream_close test_stream ;;;
       ret true)
      (ret false).

(** Python truth value of the [max_seconds] argument: [None] and [0] are
    false. *)
Definition truthy (v : option Z) : bool :=
  match v with
  | Some n => negb (n =? 0)%Z
  | None => false
  end.

(** [threading.Thread(target=self._record, args=(None,))], [start()]. *)
Definition spawn_record : M unit :=
  modify (fun s =>
    with_self (set_recording_thread (Some (length (threads s))))
      (with_threads (fun ts => ts ++ [{| th_pc := Entry; start_time := 0%Q;
                                         frame_count := 0 |}]) s)).

(** [AudioRecorder.start_recording]. *)
Definition start_recording (max_seconds_arg : option Z)
    (callback_fn level_callback_arg : option callback) : M bool :=
  me <- get_self ;;
  if is_recording me then ret false
  else
    (if truthy max_seconds_arg
     then assign (set_max_seconds (default 0%Z max_seconds_arg))
     else ret tt) ;;;
    assign (set_level_callback level_callback_arg) ;;;
    assign (set_frames []) ;;;
    assign (set_is_recording true) ;;;
    me <- get_self ;;
    initialised <-
      (if pyaudio me then ret true
       else try_except (PyAudio_new ;;; assign (set_pyaudio true) ;;; ret true)
                       (assign (set_is_recording false) ;;; ret false)) ;;
    if negb initialised then ret false
    else
      try_except
        (me <- get_self ;;
         h <- pa_open (channels me) (sample_rate me) (chunk me) ;;
         assign (set_stream (Some h)) ;;;
         (match callback_fn with Some f => invoke f | None => ret tt end) ;;;
         spawn_record ;;;
         ret true)
        (assign (set_is_recording false) ;;; ret false).

(** ** The background reader [_record]

    The thread is run one step at a time, so that calls of the main thread
    can fall between its steps: the first step goes from the start of
    [_record] to the first test of the loop, every further step is one
    iteration of [while self.is_recording]. *)

Definition idle_thread : thread :=
  {| th_pc := Done; start_time := 0%Q; frame_count := 0 |}.

Definition get_thread (tid : nat) : M thread :=
  fun s => (Returns (default idle_thread (threads s !! tid)), s).

Definition set_thread (tid : nat) (t : thread) : M unit :=
  modify (with_threads (fun ts => <[tid := t]> ts)).

Definition set_pc (tid : nat) (p : pc) : M unit :=
  t <- get_thread tid ;;
  set_thread tid {| th_pc := p; start_time := start_time t;
                    frame_count := frame_count t |}.

Definition append_frame (data : bytes) : M unit :=
  assign (fun r => set_frames (frames r ++ [data]) r).

(** [self.stream.read(...)] where [self.stream] may be [None]
    ([AttributeError]). *)
Definition read_self_stream (n : Z) : M bytes :=
  me <- get_self ;;
  match stream me with
  | Some h => stream_read h n
  | None => raise
  end.

(** The [finally] clause, after which the thread is over. *)
Definition record_finally (tid : nat) : M unit :=
  assign (set_is_recording false) ;;;
  _ <- time_time ;;
  set_pc tid Done.

(** From the start of [_record] to the loop. *)
Definition record_entry (tid : nat) : M unit :=
  t0 <- time_time ;;
  set_thread tid {| th_pc := Entry; start_time := t0; frame_count := 0 |} ;;;
  me <- get_self ;;
  match stream me with
  | None => assign (set_is_recording false) ;;; record_finally tid
  | Some h =>
      ok <- try_except
              (initial_data <- stream_read h (chunk me) ;;
               append_frame initial_data ;;;
               ret true)
              (assign (set_is_recording false) ;;; ret false) ;;
      if ok : bool then set_pc tid Loop else record_finally tid
  end.

(** [current_time > self.max_seconds]. *)
Definition exceeds (current_time : Q) (limit : Z) : bool :=
  negb (Qle_bool current_time (inject_Z limit)).

(** One iteration of [while self.is_recording]. *)
Definition record_iteration (tid : nat) : M unit :=
  me <- get_self ;;
  if negb (is_recording me) then record_finally tid
  else
    now <- time_time ;;
    t <- get_thread tid ;;
    let current_time := (now - start_time t)%Q in
    if exceeds current_time (max_seconds me) then record_finally tid
    else
      again <- try_except
                 (data <- read_self_stream (chunk me) ;;
                  append_frame data ;;;
                  let n := S (frame_count t) in
                  set_thread tid {| th_pc := Loop; start_time := start_time t;
                                    frame_count := n |} ;;;
                  me <- get_self ;;
                  (match level_callback me with
                   | Some f =>
                       if (n mod 2 =? 0)%nat then invoke_level f data else ret tt
                   | None => ret tt
                   end) ;;;
                  ret true)
                 (ret false) ;;
      if again : bool then ret tt else record_finally tid.

(** The outer [except Exception] of [_record]: an exception that reaches it
    is logged, and the [finally] clause runs. *)
Definition thread_step (tid : nat) : M unit :=
  t <- get_thread tid ;;
  match th_pc t with
  | Entry => try_except (record_entry tid) (record_finally tid)
  | Loop => try_except (record_iteration tid) (record_finally tid)
  | Done => ret tt
  end.

(** [thread.join(timeout=1.0)]: the thread runs until it is over, or for
    the [patience] steps that fit into the timeout. *)
Fixpoint thread_join (tid : nat) (patience : nat) : M unit :=
  t <- get_thread tid ;;
  match th_pc t, patience with
  | Done, _ => ret tt
  | _, O => ret tt
  | _, S p => thread_step tid ;;; thread_join tid p
  end.

(** Lines 207-217 of [stop_recording]: with no frame captured yet, one
    more read is tried; its failure is logged, nothing more. *)
Definition read_if_no_frames : M unit :=
  me <- get_self ;;
  match frames me with
  | [] =>
      try_except
        (me <- get_self ;;
         match stream me with
         | Some h =>
             if is_recording me then
               data <- stream_read h (chunk me) ;;
               append_frame data
             else ret tt
         | None => ret tt
         end)
        (ret tt)
  | _ => ret tt
  end.

(** Lines 220-221: [self.recording_thread.join(timeout=1.0)]. *)
Definition join_recording_thread (patience : nat) : M unit :=
  me <- get_self ;;
  match recording_thread me with
  | Some tid => thread_join tid patience
  | None => ret tt
  end.

(** Lines 223-229: the stream is stopped and closed, and [self.stream]
    reset, unless one of the two calls raises. *)
Definition close_stream : M unit :=
  me <- get_self ;;
  match stream me with
  | Some h =>
      try_except
        (stop_stream h ;;;
         stream_close h ;;;
         assign (set_stream None))
        (ret tt)
  | None => ret tt
  end.

(** [AudioRecorder.stop_recording]. *)
Definition stop_recording (patience : nat) : M bool :=
  me <- get_self ;;
  if negb (is_recording me) then ret false
  else
    read_if_no_frames ;;;
    assign (set_is_recording false) ;;;
    join_recording_thread patience ;;;
    close_stream ;;;
    ret true.

(** [AudioRecorder.save_wav]. *)
Definition save_wav (file_path : string) : M bool :=
  me <- get_self ;;
  match frames me with
  | [] => ret false
  | _ =>
      try_except
        (wave_open file_path ;;;
         nch <- setnchannels (channels me) ;;
         sw <- setsampwidth 2 ;;
         rate <- setframerate (sample_rate me) ;;
         content <- writeframes file_path nch sw rate (concat (frames me)) ;;
         wave_close file_path content ;;;
         ret true)
        (ret false)
  end.

(** ** Runs of the whole system *)

(** What can happen next: a call of the main thread, or a step of a reader
    thread. *)
Inductive action : Type :=
  | PreInitialize
  | StartRecording (max_seconds_arg : option Z)
                   (callback_fn level_callback_arg : option callback)
  | StopRecording (patience : nat)
  | SaveWav (file_path : string)
  | ThreadStep (tid : nat).

Definition perform (a : action) : M unit :=
  match a with
  | PreInitialize => pre_initialize ;;; ret tt
  | StartRecording m c l => start_recording m c l ;;; ret tt
  | StopRecording p => stop_recording p ;;; ret tt
  | SaveWav path => save_wav path ;;; ret tt
  | ThreadStep tid => thread_step tid
  end.

Definition run (acts : list action) (s : state) : state :=
  fold_left (fun s a => snd (perform a s)) acts s.

(** The number of streams that are open. *)
Definition open_count (s : state) : nat := size (open_streams (env s)).

(** A world in which nothing is open, no file exists, and the script is
    [oracle], [clock]. *)
Definition fresh_world (oracle : nat -> outcome) (clock : nat -> Q) : world :=
  {| open_streams := ∅; next_handle := 0; fs := ∅; oracle := oracle;
     clock := clock; cursor := 0; trace := [] |}.

(** The calls made between two states, oldest first. *)
Definition calls_since (s s' : state) : list event :=
  drop (length (trace (env s))) (trace (env s')).

(** ** Consistency of flag and stream *)

(** Stream handles are handed out in increasing order: every open stream
    is older than the next one to come. *)
Definition handles_fresh (s : state) : Prop :=
  forall h, h ∈ open_streams (env s) -> h < next_handle (env s).

(** A set recording flag comes with an open stream in [self.stream]. *)
Definition flag_consistent (s : state) : Prop :=
  is_recording (self s) = true ->
  exists h, stream (self s) = Some h /\ h ∈ open_streams (env s).

(** What holds between the calls of the methods, in every state a
    recorder can reach. *)
Definition consistent (s : state) : Prop :=
  handles_fresh s /\ flag_consistent s.

(** What holds inside [stop_recording] once the flag is cleared. *)
Definition stopping (s : state) : Prop :=
  handles_fresh s /\ is_recording (self s) = false.

(** From a state in [P], the code returns (it does not raise) and ends in
    a state in [Q]. *)
Definition leads {A} (P : state -> Prop) (m : M A) (Q : state -> Prop)
  : Prop :=
  forall s, P s -> exists a s', m s = (Returns a, s') /\ Q s'.

(** A piece of code that returns, touches neither the streams nor
    [self.stream], and does not set the recording flag. *)
Definition quiet {A} (m : M A) : Prop :=
  forall s, exists a s',
    m s = (Returns a, s') /\
    open_streams (env s') = open_streams (env s) /\
    next_handle (env s') = next_handle (env s) /\
    stream (self s') = stream (self s) /\
    (is_recording (self s') = true -> is_recording (self s) = true).

(** ** Growth of the frame sequence *)

(** A piece of code that returns and that only appends to [self.frames]:
    the frames held before are a prefix of the frames held after. *)
Definition grows {A} (m : M A) : Prop :=
  forall s, exists a s',
    m s = (Returns a, s') /\
    frames (self s) `prefix_of` frames (self s').

(** An action other than a call of [start_recording]. *)
Definition not_a_start (a : action) : Prop :=
  match a with
  | StartRecording _ _ _ => False
  | _ => True
  end.

(** ** Scripts of the outside world, as the statements below need them *)

Definition is_good (o : outcome) : bool :=
  match o with Good _ => true | Bad => false end.

(** The [k]-th call from now on succeeds. *)
Definition succeeds (k : nat) (s : state) : bool :=
  is_good (oracle (env s) (cursor (env s) + k)).

(** In [start_recording], [self.pyaudio.open] raises: it is the next call,
    or the one after a successful [pyaudio.PyAudio()]. *)
Definition open_raises (s : state) : bool :=
  if pyaudio (self s) then negb (succeeds 0 s)
  else succeeds 0 s && negb (succeeds 1 s).

(** In [save_wav], [wave.open], [writeframes] and [close] all succeed. *)
Definition writes_succeed (s : state) : bool :=
  succeeds 0 s && succeeds 1 s && succeeds 2 s.

(** The configured format can be declared in a WAV header that carries the
    captured frames. *)
Definition wav_format_ok (s : state) : bool :=
  ((1 <=? channels (self s)) && (0 <? sample_rate (self s)))%Z
  && header_fits (channels (self s)) 2 (sample_rate (self s))
       (Z.of_nat (length (concat (frames (self s))))).

(** Every call succeeds, every read delivers one silent sample. *)
Definition all_good : nat -> outcome := fun _ => Good [x00; x00].

(** Every call raises. *)
Definition all_bad : nat -> outcome := fun _ => Bad.

(** A clock that advances by one second from one number of the script to
    the next. *)
Definition ticking_clock : nat -> Q := fun k => inject_Z (Z.of_nat k).

(** A clock that stands at 0 s up to number 3 of the script and at 1000 s
    from number 4 on. *)
Definition late_clock : nat -> Q :=
  fun k => if (k <? 4)%nat then 0%Q else 1000%Q.

(** A recorder as [AudioRecorder(SAMPLE_RATE, CHANNELS, 1024)] makes it,
    in a world where every call succeeds: [__init__] takes number 0 of the
    script, [start_recording] number 1, the reader numbers 2 and 3 up to
    its loop and number 4 for the first reading of the clock there. *)
Definition fresh_recorder : state :=
  __init__ SAMPLE_RATE CHANNELS 1024 (fresh_world all_good late_clock).

(** The same with a clock that advances by one second per reading. *)
Definition ticking_recorder : state :=
  __init__ SAMPLE_RATE CHANNELS 1024 (fresh_world all_good ticking_clock).

(** Every call succeeds but the one numbered [n], which raises. *)
Definition fails_at (n : nat) : nat -> outcome :=
  fun k => if (k =? n)%nat then Bad else Good [x00; x00].

(** A recorder whose second device read is going to fail: [__init__] and
    [start_recording] take entries 0 and 1 of the script, the reader
    entries 2 to 4 up to its second read, which is entry 5. *)
Definition failing_recorder : state :=
  __init__ SAMPLE_RATE CHANNELS 1024 (fresh_world (fails_at 5) ticking_clock).

(** A recorder after a session of two frames, started and stopped. *)
Definition recorded : state :=
  run [StartRecording None None None; ThreadStep 0; ThreadStep 0;
       StopRecording 1] ticking_recorder.

(** A recorder that holds one captured frame, in a world where every call
    raises. *)
Definition recorder_with_frame : state :=
  with_env (fun w => {| open_streams := open_streams w;
                        next_handle := next_handle w; fs := fs w;
                        oracle := all_bad; clock := clock w;
                        cursor := cursor w; trace := trace w |})
    (with_self (set_frames [[x00; x00]]) fresh_recorder).

(** A recorder whose third call of the script (number 2) raises: after
    [__init__] the next call, number 1, succeeds and the one after it
    fails. *)
Definition third_call_fails : state :=
  __init__ SAMPLE_RATE CHANNELS 1024 (fresh_world (fails_at 2) ticking_clock).

(** The session of [r] just started; and with its reader arrived in its
    loop, one frame captured. *)
Definition started (r : state) : state :=
  run [StartRecording None None None] r.

Definition looping (r : state) : state :=
  run [StartRecording None None None; ThreadStep 0] r.

(** ** A whole session on a working device *)

(** The frames of a session started at number [c] of a script whose reads
    deliver [d]: the reader takes number [c + 1] for its first reading of
    the clock and number [c + 2] for its first read, then two numbers per
    iteration. *)
Definition session_frames (d : nat -> bytes) (c n : nat) : list bytes :=
  map (fun i => d (c + 2 + 2 * i)) (seq 0 n).

(** The state of the session opened from [s] once its reader, in its
    loop, has captured [k + 1] frames; [tr] is the trace so far. *)
Definition capturing (s : state) (d : nat -> bytes) (k : nat)
    (tr : list event) : state :=
  {| self :=
       set_recording_thread (Some (length (threads s)))
         (set_is_recording true
            (set_frames (session_frames d (cursor (env s)) (S k))
               (set_stream (Some (next_handle (env s)))
                  (set_level_callback None (self s)))));
     env :=
       {| open_streams := {[next_handle (env s)]} ∪ open_streams (env s);
          next_handle := S (next_handle (env s));
          fs := fs (env s);
          oracle := oracle (env s);
          clock := clock (env s);
          cursor := cursor (env s) + 3 + 2 * k;
          trace := tr |};
     threads :=
       threads s ++ [{| th_pc := Loop;
                        start_time := clock (env s) (S (cursor (env s)));
                        frame_count := k |}] |}.

(** A session: start, the first step of the reader and [n] iterations of
    its loop, stop, save. *)
Definition session (tid n : nat) (file_path : string) : list action :=
  StartRecording None None None
    :: repeat (ThreadStep tid) (S n) ++ [StopRecording 1; SaveWav file_path].

(** A device whose call number [k] delivers the sample [k]; a clock that
    stands still; and a new recorder in that world. *)
Definition numbered : nat -> bytes :=
  fun k => [byte_of_Z (Z.of_nat k); x00].

Definition still_clock : nat -> Q := fun _ => 0%Q.

Definition numbered_recorder : state :=
  __init__ SAMPLE_RATE CHANNELS 1024
    (fresh_world (fun k => Good (numbered k)) still_clock).

(* ===================================================================== *)
(** * Part III.  Theorems                                                 *)
(* ===================================================================== *)

(** ** The level meter *)

Section LevelMeter.

Local Open Scope Z_scope.

Lemma wrap16_range (z : Z) : -32768 <= wrap16 z <= 32767.
Proof.
  unfold wrap16.
  pose proof (Z.mod_pos_bound z 65536 ltac:(lia)) as Hu.
  destruct (Z.ltb_spec (z mod 65536) 32768); lia.
Qed.

Lemma wrap16_small (z : Z) : -32768 <= z <= 32767 -> wrap16 z = z.
Proof.
  intros Hz. unfold wrap16.
  destruct (Z_lt_le_dec z 0) as [Hneg | Hpos].
  - replace (z mod 65536) with (z + 65536).
    + destruct (Z.ltb_spec (z + 65536) 32768); lia.
    + apply Z.mod_unique with (q := -1); lia.
  - rewrite Z.mod_small by lia.
    destruct (Z.ltb_spec z 32768); lia.
Qed.

Lemma np_square_length (a : list Z) : length (np_square a) = length a.
Proof. unfold np_square. apply length_map. Qed.

Lemma zsum_np_square_bounds (a : list Z) :
  -32768 * Z.of_nat (length a) <= zsum (np_square a)
    <= 32767 * Z.of_nat (length a).
Proof.
  induction a as [| x a IH].
  - simpl. lia.
  - change (np_square (x :: a)) with (wrap16 (x * x) :: np_square a).
    change (zsum (wrap16 (x * x) :: np_square a))
      with (wrap16 (x * x) + zsum (np_square a)).
    pose proof (wrap16_range (x * x)).
    rewrite length_cons, Nat2Z.inj_succ. lia.
Qed.

Lemma np_mean_nonempty (a : list Z) :
  a <> [] ->
  np_mean a = Fin (IZR (zsum a) / IZR (Z.of_nat (length a)))%R.
Proof. destruct a; [congruence | reflexivity]. Qed.

Lemma Rpower_one (y : R) : Rpower 1 y = 1%R.
Proof. unfold Rpower. rewrite ln_1, Rmult_0_r. apply exp_0. Qed.

Lemma sqrt_300 : sqrt 90000 = 300%R.
Proof.
  replace 90000%R with (300 * 300)%R by lra.
  apply sqrt_square. lra.
Qed.

(** A NaN RMS passes the noise gate, and Python's [min(1.0, nan)] is
    [1.0]. *)
Lemma level_of_rms_nan : level_of_rms NaN = Fin 1.
Proof.
  unfold level_of_rms, py_min, fpow. simpl.
  destruct (Rlt_dec 0 1) as [_ | H]; [| exfalso; apply H; lra].
  now rewrite Rpower_one.
Qed.

Lemma level_of_rms_quiet (r : R) :
  (r < 300)%R -> level_of_rms (Fin r) = Fin 0.
Proof.
  intros Hr. unfold level_of_rms, flt, noise_threshold.
  destruct (Rlt_dec r 300); [reflexivity | contradiction].
Qed.

(** The value computed at line 270: with the squares reduced to 16 bits
    the mean is at most 32767, so its root never reaches the noise floor;
    and when the reduced squares sum to a negative number the root is
    NaN. *)
Lemma rms_of_cases (a : list Z) :
  a <> [] ->
  (zsum (np_square a) < 0 -> rms_of a = NaN) /\
  (0 <= zsum (np_square a) ->
   exists r, rms_of a = Fin r /\ (0 <= r < 300)%R).
Proof.
  intros Ha.
  assert (Hlen : (0 < Z.of_nat (length a))%Z)
    by (destruct a; [congruence | simpl; lia]).
  assert (Hsq : np_square a <> [])
    by (destruct a; [congruence | discriminate]).
  pose proof (zsum_np_square_bounds a) as [_ Hub].
  unfold rms_of. rewrite (np_mean_nonempty _ Hsq), np_square_length.
  set (s := zsum (np_square a)) in *.
  set (n := Z.of_nat (length a)) in *.
  assert (Hn : (0 < IZR n)%R) by (apply IZR_lt in Hlen; exact Hlen).
  set (q := (IZR s / IZR n)%R).
  assert (Hq : (q * IZR n = IZR s)%R) by (unfold q; field; lra).
  split; intros Hs; simpl.
  - apply IZR_lt in Hs.
    destruct (Rlt_dec q 0) as [_ | Hge]; [reflexivity |].
    exfalso. apply Hge. nra.
  - apply IZR_le in Hs. apply IZR_le in Hub. rewrite mult_IZR in Hub.
    destruct (Rlt_dec q 0) as [Hlt | _]; [exfalso; nra |].
    exists (sqrt q). split; [reflexivity |]. split.
    + apply sqrt_pos.
    + rewrite <- sqrt_300. apply sqrt_lt_1_alt. split; nra.
Qed.

(** What [_calculate_audio_level] returns, in terms of integers only: [0.0]
    for a buffer of odd size, [1.0] for the empty buffer and for a buffer
    whose 16-bit reduced squares sum to a negative number, [0.0] in every
    other case. *)
Lemma level_by_cases (data : bytes) :
  _calculate_audio_level data =
  match frombuffer data with
  | None => Fin 0
  | Some [] => Fin 1
  | Some a => if zsum (np_square a) <? 0 then Fin 1 else Fin 0
  end.
Proof.
  unfold _calculate_audio_level.
  destruct (frombuffer data) as [a |]; [| reflexivity].
  destruct a as [| x a]; [apply level_of_rms_nan |].
  destruct (rms_of_cases (x :: a) ltac:(discriminate)) as [Hneg Hpos].
  destruct (Z.ltb_spec (zsum (np_square (x :: a))) 0) as [H | H].
  - rewrite (Hneg H). apply level_of_rms_nan.
  - destruct (Hpos H) as (r & -> & Hr). apply level_of_rms_quiet, Hr.
Qed.

(** The level is never anything but [0.0] or [1.0]. *)
Lemma level_two_valued (data : bytes) :
  _calculate_audio_level data = Fin 0 \/ _calculate_audio_level data = Fin 1.
Proof.
  rewrite level_by_cases.
  destruct (frombuffer data) as [[| x a] |]; auto.
  destruct (zsum (np_square (x :: a)) <? 0); auto.
Qed.

End LevelMeter.

(** ** Frames given by their samples *)

Section Frames.

Local Open Scope Z_scope.

Lemma byte_val_byte_of_Z (z : Z) : byte_val (byte_of_Z z) = z mod 256.
Proof.
  pose proof (Z.mod_pos_bound z 256 ltac:(lia)) as Hb.
  unfold byte_val, byte_of_Z.
  destruct (Byte.of_N (Z.to_N (z mod 256))) as [b |] eqn:E.
  - apply Byte.to_of_N in E. rewrite E. apply Z2N.id. lia.
  - apply Byte.of_N_None_iff in E. lia.
Qed.

Lemma int16_le_sample_bytes (x : Z) :
  -32768 <= x <= 32767 ->
  int16_le (byte_of_Z (x mod 65536)) (byte_of_Z (x mod 65536 / 256)) = x.
Proof.
  intros Hx. unfold int16_le. rewrite !byte_val_byte_of_Z.
  pose proof (Z.mod_pos_bound x 65536 ltac:(lia)) as Hu.
  set (u := x mod 65536) in *.
  rewrite (Z.mod_small (u / 256)).
  2:{ split; [apply Z.div_pos; lia | apply Z.div_lt_upper_bound; lia]. }
  replace (u mod 256 + 256 * (u / 256)) with u
    by (rewrite (Z.div_mod u 256) at 1; lia).
  unfold wrap16, u. rewrite Z.mod_mod by lia. fold (wrap16 x).
  now apply wrap16_small.
Qed.

(** Decoding a frame gives back the samples it was made of. *)
Lemma frombuffer_frame_of_samples (samples : list Z) :
  Forall (fun x => -32768 <= x <= 32767) samples ->
  frombuffer (frame_of_samples samples) = Some samples.
Proof.
  induction 1 as [| x l Hx _ IH]; [reflexivity |].
  change (frame_of_samples (x :: l))
    with (byte_of_Z (x mod 65536) :: byte_of_Z (x mod 65536 / 256)
            :: frame_of_samples l).
  cbn [frombuffer]. rewrite IH. now rewrite int16_le_sample_bytes.
Qed.

Lemma zsum_np_square_repeat (c : Z) (n : nat) :
  zsum (np_square (repeat c n)) = Z.of_nat n * wrap16 (c * c).
Proof.
  induction n as [| n IH]; [reflexivity |].
  change (zsum (np_square (repeat c (S n))))
    with (wrap16 (c * c) + zsum (np_square (repeat c n))).
  rewrite IH. lia.
Qed.

(** The level of a frame of [n] equal samples. *)
Lemma level_constant_frame (c : Z) (n : nat) :
  -32768 <= c <= 32767 -> (0 < n)%nat ->
  _calculate_audio_level (frame_of_samples (repeat c n)) =
  if wrap16 (c * c) <? 0 then Fin 1 else Fin 0.
Proof.
  intros Hc Hn. rewrite level_by_cases, frombuffer_frame_of_samples.
  2:{ clear Hn. induction n; constructor; assumption. }
  rewrite zsum_np_square_repeat.
  destruct n as [| n]; [lia |]. cbn [repeat].
  pose proof (wrap16_range (c * c)).
  destruct (Z.ltb_spec (wrap16 (c * c)) 0),
           (Z.ltb_spec (Z.of_nat (S n) * wrap16 (c * c)) 0);
    try reflexivity; nia.
Qed.

(** As long as no square overflows 16 bits, that is for samples within
    [-181 .. 181], the code computes the RMS of the samples and the level
    of the formula. *)
Lemma np_square_without_overflow (a : list Z) :
  Forall (fun x => -181 <= x <= 181) a ->
  np_square a = map (fun x => x * x) a.
Proof.
  induction 1 as [| x l Hx _ IH]; [reflexivity |].
  change (np_square (x :: l)) with (wrap16 (x * x) :: np_square l).
  cbn [map]. rewrite IH. f_equal. apply wrap16_small. nia.
Qed.

Lemma level_agrees_without_overflow (data : bytes) (a : list Z) :
  frombuffer data = Some a ->
  Forall (fun x => -181 <= x <= 181) a ->
  _calculate_audio_level data = spec_level data.
Proof.
  intros Hbuf Ha. unfold _calculate_audio_level, spec_level.
  rewrite Hbuf. unfold rms_of, true_rms.
  now rewrite np_square_without_overflow.
Qed.

End Frames.

(** ** The mapping from RMS to level, taken alone *)

Section Curve.

Local Open Scope R_scope.

Lemma level_of_rms_above (r : R) :
  300 < r < 32768 ->
  level_of_rms (Fin r) =
  Fin (Rpower ((r - noise_threshold) / (32768 - noise_threshold)) (7 / 10)).
Proof.
  intros [Hlo Hhi].
  unfold level_of_rms, py_min, fdiv, fsub, flt, fpow, noise_threshold.
  destruct (Rlt_dec r 300) as [H | _]; [lra |].
  assert (Hv : 0 < (r - 300) / (32768 - 300) < 1).
  { split.
    - apply Rdiv_lt_0_compat; lra.
    - apply Rmult_lt_reg_r with (32768 - 300); [lra |].
      unfold Rdiv. rewrite Rmult_assoc, Rinv_l by lra. lra. }
  destruct (Rlt_dec ((r - 300) / (32768 - 300)) 1) as [_ | H]; [| lra].
  destruct (Rlt_dec 0 ((r - 300) / (32768 - 300))) as [_ | H]; [| lra].
  reflexivity.
Qed.

Lemma fpow_monotone (x y c : R) :
  0 <= c -> 0 <= x <= y -> fle (fpow (Fin x) c) (fpow (Fin y) c).
Proof.
  intros Hc [Hx Hxy]. unfold fpow, fle.
  destruct (Rlt_dec 0 x) as [Hx0 | Hx0], (Rlt_dec 0 y) as [Hy0 | Hy0];
    try lra.
  - apply Rle_Rpower_l; [exact Hc | split; assumption].
  - destruct (Rlt_dec x 0); [lra |].
    left. unfold Rpower. apply exp_pos.
  - destruct (Rlt_dec x 0); [lra |]. destruct (Rlt_dec y 0); lra.
Qed.

(** X5.  Lines 276-286 alone are monotone: above the noise floor a larger
    RMS value never maps to a smaller level. *)
Lemma level_of_rms_monotone (a b : R) :
  300 <= a <= b ->
  fle (level_of_rms (Fin a)) (level_of_rms (Fin b)).
Proof.
  intros [Ha Hab].
  unfold level_of_rms, flt, noise_threshold.
  destruct (Rlt_dec a 300) as [H | _]; [lra |].
  destruct (Rlt_dec b 300) as [H | _]; [lra |].
  unfold py_min, fdiv, fsub, flt.
  assert (Hd : 0 < / (32768 - 300)) by (apply Rinv_0_lt_compat; lra).
  assert (Hga : 0 <= (a - 300) / (32768 - 300))
    by (unfold Rdiv; apply Rmult_le_pos; lra).
  assert (Hgab : (a - 300) / (32768 - 300) <= (b - 300) / (32768 - 300))
    by (unfold Rdiv; apply Rmult_le_compat_r; lra).
  destruct (Rlt_dec ((a - 300) / (32768 - 300)) 1),
           (Rlt_dec ((b - 300) / (32768 - 300)) 1);
    apply fpow_monotone; lra.
Qed.

Lemma true_rms_single (x : Z) : true_rms [x] = Fin (Rabs (IZR x)).
Proof.
  unfold true_rms, np_mean, np_sqrt. cbn [map zsum fold_right length].
  rewrite Z.add_0_r, mult_IZR.
  change (IZR (Z.of_nat 1)) with 1. rewrite Rdiv_1_r.
  destruct (Rlt_dec (IZR x * IZR x) 0) as [H | _]; [nra |].
  f_equal. apply sqrt_Rsqr_abs.
Qed.

End Curve.

(** ** Claims on the level meter *)

Section LevelClaims.

Local Open Scope R_scope.

(** C2.  A frame of [n >= 1] zero samples has level [0.0].  A frame of
    [n >= 1] samples at full scale, all [32767] or all [-32768], has level
    [0.0] as well, not [1.0]: the [int16] squares wrap to [1] and to [0],
    so the RMS the code computes is [1] or [0], below the noise floor. *)
Theorem C2_level_of_silent_and_full_scale_frames (n : nat) :
  (0 < n)%nat ->
  _calculate_audio_level (frame_of_samples (repeat 0%Z n)) = Fin 0 /\
  _calculate_audio_level (frame_of_samples (repeat 32767%Z n)) = Fin 0 /\
  _calculate_audio_level (frame_of_samples (repeat (-32768)%Z n)) = Fin 0.
Proof.
  intros Hn.
  split; [| split]; now rewrite level_constant_frame by lia.
Qed.

Lemma C2_level_of_silent_and_full_scale_frames_witness :
  (0 < 1024)%nat /\
  _calculate_audio_level (frame_of_samples (repeat 0%Z 1024)) = Fin 0 /\
  _calculate_audio_level (frame_of_samples (repeat 32767%Z 1024)) = Fin 0 /\
  _calculate_audio_level (frame_of_samples (repeat (-32768)%Z 1024)) = Fin 0.
Proof.
  split.
  - lia.
  - apply (C2_level_of_silent_and_full_scale_frames 1024). lia.
Defined.

(** The two bytes [00 80] are the sample [-32768]: the frame of one
    full-scale sample, seen as the bytes the device delivers. *)
Lemma full_scale_frame_bytes :
  frame_of_samples [(-32768)%Z] = [x00; x80] /\
  frame_of_samples [32767%Z] = [xff; x7f].
Proof. split; reflexivity. Qed.

(** The empty frame, which has no sample that is not zero, has level
    [1.0]: the mean of an empty array is NaN. *)
Lemma level_of_empty_frame : _calculate_audio_level [] = Fin 1.
Proof. now rewrite level_by_cases. Qed.

(** Without the 16-bit reduction the RMS of a full-scale frame is the
    magnitude of the sample. *)
Lemma spec_level_full_scale :
  spec_level [x00; x80] = Fin 1.
Proof.
  unfold spec_level. change (frombuffer [x00; x80]) with (Some [(-32768)%Z]).
  cbv beta iota. rewrite true_rms_single.
  replace (Rabs (-32768)) with 32768 by (rewrite Rabs_left; lra).
  unfold level_of_rms, py_min, fdiv, fsub, flt, fpow, noise_threshold.
  destruct (Rlt_dec 32768 300) as [H | _]; [lra |].
  replace ((32768 - 300) / (32768 - 300)) with 1 by (field; lra).
  destruct (Rlt_dec 1 1) as [H | _]; [lra |].
  destruct (Rlt_dec 0 1) as [_ | H]; [| lra].
  now rewrite Rpower_one.
Qed.

(** C4.  The frame [e8 03] is the single sample [1000]; its RMS amplitude
    is [1000], above the noise floor, so that the formula gives
    [((1000 - 300) / (32768 - 300)) ** 0.7], a positive level; the code
    returns [0.0], because it takes the root of the [int16] square
    [16960].  The frame [c8 00] is the single sample [200]; its RMS
    amplitude is below the noise floor, the formula gives [0.0]; the code
    returns [1.0], because the [int16] square [-25536] has no root. *)
Theorem C4_level_of_loud_frame_is_zero :
  (frombuffer [xe8; x03] = Some [1000%Z] /\
   rms_amplitude [xe8; x03] = Fin 1000 /\
   spec_level [xe8; x03] =
     Fin (Rpower ((1000 - 300) / (32768 - 300)) (7 / 10)) /\
   0 < Rpower ((1000 - 300) / (32768 - 300)) (7 / 10) /\
   np_square [1000%Z] = [16960%Z] /\
   _calculate_audio_level [xe8; x03] = Fin 0) /\
  (frombuffer [xc8; x00] = Some [200%Z] /\
   rms_amplitude [xc8; x00] = Fin 200 /\
   spec_level [xc8; x00] = Fin 0 /\
   np_square [200%Z] = [(-25536)%Z] /\
   _calculate_audio_level [xc8; x00] = Fin 1).
Proof.
  assert (Hbuf : frombuffer [xe8; x03] = Some [1000%Z]) by reflexivity.
  assert (Habs : Rabs 1000 = 1000) by (apply Rabs_right; lra).
  assert (Hbuf' : frombuffer [xc8; x00] = Some [200%Z]) by reflexivity.
  assert (Habs' : Rabs 200 = 200) by (apply Rabs_right; lra).
  split.
  - split; [exact Hbuf |].
    split.
    { unfold rms_amplitude. rewrite Hbuf. cbv beta iota.
      now rewrite true_rms_single, Habs. }
    split.
    { unfold spec_level. rewrite Hbuf. cbv beta iota.
      rewrite true_rms_single, Habs.
      rewrite level_of_rms_above by lra. reflexivity. }
    split; [unfold Rpower; apply exp_pos |].
    split; [reflexivity |].
    now rewrite level_by_cases, Hbuf.
  - split; [exact Hbuf' |].
    split.
    { unfold rms_amplitude. rewrite Hbuf'. cbv beta iota.
      now rewrite true_rms_single, Habs'. }
    split.
    { unfold spec_level. rewrite Hbuf'. cbv beta iota.
      rewrite true_rms_single, Habs'. apply level_of_rms_quiet. lra. }
    split; [reflexivity |].
    now rewrite level_by_cases, Hbuf'.
Qed.

(** C5.  The frames [5e 01] and [90 01] are the single samples [350] and
    [400]: both RMS amplitudes are above the noise floor and the first is
    the smaller one, yet the first frame has level [1.0] (its [int16]
    square is negative, the root is NaN) and the second has level [0.0]. *)
Theorem C5_level_decreases_from_350_to_400 :
  rms_amplitude [x5e; x01] = Fin 350 /\
  rms_amplitude [x90; x01] = Fin 400 /\
  np_square [350%Z] = [(-8572)%Z] /\
  np_square [400%Z] = [28928%Z] /\
  _calculate_audio_level [x5e; x01] = Fin 1 /\
  _calculate_audio_level [x90; x01] = Fin 0 /\
  ~ fle (_calculate_audio_level [x5e; x01]) (_calculate_audio_level [x90; x01]).
Proof.
  assert (Ha : frombuffer [x5e; x01] = Some [350%Z]) by reflexivity.
  assert (Hb : frombuffer [x90; x01] = Some [400%Z]) by reflexivity.
  assert (Hla : _calculate_audio_level [x5e; x01] = Fin 1)
    by now rewrite level_by_cases, Ha.
  assert (Hlb : _calculate_audio_level [x90; x01] = Fin 0)
    by now rewrite level_by_cases, Hb.
  split.
  { unfold rms_amplitude. rewrite Ha. cbv beta iota.
    rewrite true_rms_single. f_equal. apply Rabs_right. lra. }
  split.
  { unfold rms_amplitude. rewrite Hb. cbv beta iota.
    rewrite true_rms_single. f_equal. apply Rabs_right. lra. }
  split; [reflexivity |].
  split; [reflexivity |].
  split; [exact Hla |].
  split; [exact Hlb |].
  rewrite Hla, Hlb. simpl. lra.
Qed.

End LevelClaims.

(** ** Claims on the recorder *)

Section RecorderClaims.

(** Symbolic execution of a method: unfolds the monad, the primitives and
    the field updates. *)
Ltac run_method :=
  cbv beta iota zeta delta
    [start_recording pre_initialize stop_recording save_wav __init__
     read_if_no_frames join_recording_thread close_stream
     PyAudio_new pa_open stream_read stop_stream stream_close invoke
     invoke_level spawn_record wave_open wave_close writeframes
     setnchannels setsampwidth setframerate is_open
     bind ret raise try_except get get_self modify assign external
     with_self with_env with_threads self env threads
     pyaudio stream frames is_recording max_seconds level_callback
     recording_thread sample_rate channels chunk
     open_streams next_handle fs oracle clock cursor trace
     set_pyaudio set_stream set_frames set_is_recording
     set_recording_thread set_max_seconds set_level_callback
     set_open_streams set_next_handle set_fs set_cursor set_trace
     fst snd negb andb orb succeeds is_good open_raises] in *.

(** Case analysis on what the script and the arguments decide. *)
Ltac split_cases :=
  repeat match goal with
    | |- context [match ?o with Good _ => _ | Bad => _ end] =>
        destruct o eqn:?
    | |- context [match ?o with Some _ => _ | None => _ end] =>
        destruct o eqn:?
    | |- context [if ?b then _ else _] => destruct b eqn:?
    end.

(** The same on what the hypotheses say about the script. *)
Ltac split_hyps :=
  repeat rewrite Nat.add_succ_r in *; repeat rewrite Nat.add_0_r in *;
  repeat match goal with
    | H : context [match ?o with Good _ => _ | Bad => _ end] |- _ =>
        destruct o eqn:?; try discriminate H
    | H : context [if ?b then _ else _] |- _ =>
        destruct b eqn:?; try discriminate H
    end.

(** One step of execution followed by one case distinction. *)
Ltac step :=
  run_method;
  first
    [ match goal with
      | |- context [bool_decide (?h ∈ {[?h]} ∪ ?O)] =>
          rewrite (bool_decide_eq_true_2 (h ∈ {[h]} ∪ O))
            by (apply elem_of_union_l, elem_of_singleton; reflexivity)
      end
    | match goal with
      | |- context [match ?o with Good _ => _ | Bad => _ end] =>
          destruct o eqn:?
      end
    | match goal with
      | |- context [if ?b then _ else _] => destruct b eqn:?
      end ].

Lemma save_wav_no_frames (s : state) (file_path : string) :
  frames (self s) = [] -> save_wav file_path s = (Returns false, s).
Proof.
  intros H. unfold save_wav, bind, get_self. now rewrite H.
Qed.

Lemma succeeds_good (k : nat) (s : state) :
  succeeds k s = true ->
  exists data, oracle (env s) (cursor (env s) + k) = Good data.
Proof.
  unfold succeeds, is_good.
  destruct (oracle (env s) (cursor (env s) + k)) as [data |];
    [eauto | discriminate].
Qed.

(** What [start_recording] leaves in [self.max_seconds], on every path. *)
Lemma start_recording_max_seconds (s : state) (arg : option Z)
    (callback_fn level_callback_arg : option callback) :
  max_seconds
    (self (snd (start_recording arg callback_fn level_callback_arg s))) =
  if negb (is_recording (self s)) && truthy arg
  then default 0%Z arg else max_seconds (self s).
Proof.
  destruct s as [me w ts]. destruct me, w. run_method.
  split_cases; reflexivity.
Qed.

Lemma init_fields (sr ch ck : Z) (w : world) :
  max_seconds (self (__init__ sr ch ck w)) = 300%Z /\
  is_recording (self (__init__ sr ch ck w)) = false /\
  frames (self (__init__ sr ch ck w)) = [] /\
  stream (self (__init__ sr ch ck w)) = None.
Proof. destruct w. run_method. split_cases; repeat split; reflexivity. Qed.

Lemma exceeds_within (t : Q) (limit : Z) :
  (t <= inject_Z limit)%Q -> exceeds t limit = false.
Proof.
  intros H. unfold exceeds. apply Qle_bool_iff in H. now rewrite H.
Qed.

(** C6.  In a state whose recording flag is set, [start_recording] returns
    [False] and the state after the call is the state before it: the
    recorder with its frames, the streams, the files and the threads. *)
Theorem C6_start_while_recording_rejected (s : state)
    (max_seconds_arg : option Z)
    (callback_fn level_callback_arg : option callback) :
  is_recording (self s) = true ->
  start_recording max_seconds_arg callback_fn level_callback_arg s
  = (Returns false, s).
Proof.
  intros H. unfold start_recording, bind, get_self. now rewrite H.
Qed.

Lemma C6_start_while_recording_rejected_witness :
  is_recording (self (run [StartRecording None None None] fresh_recorder))
    = true /\
  start_recording (Some 5%Z) None None
    (run [StartRecording None None None] fresh_recorder)
  = (Returns false, run [StartRecording None None None] fresh_recorder).
Proof.
  split.
  - reflexivity.
  - apply (C6_start_while_recording_rejected
             (run [StartRecording None None None] fresh_recorder)).
    reflexivity.
Defined.

(** C7.  With no frame captured, [save_wav] returns [False] and leaves the
    state as it was; in particular the file system is unchanged: no file
    is created at the path. *)
Theorem C7_save_without_frames_writes_nothing (s : state)
    (file_path : string) :
  frames (self s) = [] ->
  save_wav file_path s = (Returns false, s) /\
  fs (env (snd (save_wav file_path s))) = fs (env s).
Proof.
  intros H. rewrite (save_wav_no_frames s file_path H). split; reflexivity.
Qed.

Lemma C7_save_without_frames_writes_nothing_witness :
  frames (self fresh_recorder) = [] /\
  save_wav "out.wav" fresh_recorder = (Returns false, fresh_recorder) /\
  fs (env (snd (save_wav "out.wav" fresh_recorder))) = fs (env fresh_recorder).
Proof.
  split.
  - reflexivity.
  - apply (C7_save_without_frames_writes_nothing fresh_recorder "out.wav").
    reflexivity.
Defined.

(** C9.  With [max_seconds] given as [None] or [0], [start_recording]
    leaves [self.max_seconds] as it was; on a new recorder that is 300, so
    that the test of the loop, [current_time > self.max_seconds], is false
    for every elapsed time up to 300 seconds.  A non-zero argument is
    stored (when the call is not rejected). *)
Theorem C9_falsy_max_seconds_keeps_limit (s : state) (arg : option Z)
    (callback_fn level_callback_arg : option callback)
    (sr ch ck : Z) (w : world) :
  arg = None \/ arg = Some 0%Z ->
  max_seconds
    (self (snd (start_recording arg callback_fn level_callback_arg s)))
    = max_seconds (self s) /\
  max_seconds
    (self (snd (start_recording arg callback_fn level_callback_arg
                  (__init__ sr ch ck w))))
    = 300%Z /\
  (forall t : Q,
     (t <= 300)%Q ->
     exceeds t
       (max_seconds
          (self (snd (start_recording arg callback_fn level_callback_arg
                        (__init__ sr ch ck w)))))
     = false) /\
  (forall n : Z,
     n <> 0%Z -> is_recording (self s) = false ->
     max_seconds
       (self (snd (start_recording (Some n) callback_fn level_callback_arg s)))
     = n).
Proof.
  intros Harg.
  assert (Hkeep : forall s0,
    max_seconds
      (self (snd (start_recording arg callback_fn level_callback_arg s0)))
    = max_seconds (self s0)).
  { intros s0. rewrite start_recording_max_seconds.
    destruct Harg as [-> | ->]; cbn [truthy]; now rewrite andb_false_r. }
  destruct (init_fields sr ch ck w) as (H300 & _).
  split; [apply Hkeep |].
  split; [now rewrite Hkeep |].
  split.
  - intros t Ht. rewrite Hkeep, H300. now apply exceeds_within.
  - intros n Hn Hrec. rewrite start_recording_max_seconds, Hrec.
    cbn [truthy negb andb default].
    destruct (Z.eqb_spec n 0); [contradiction | reflexivity].
Qed.

Lemma C9_falsy_max_seconds_keeps_limit_witness :
  (Some 0%Z = None \/ Some 0%Z = Some 0%Z) /\
  max_seconds (self (snd (start_recording (Some 0%Z) None None fresh_recorder)))
    = max_seconds (self fresh_recorder) /\
  max_seconds
    (self (snd (start_recording (Some 0%Z) None None
                  (__init__ 16000 1 1024 (fresh_world all_good ticking_clock)))))
    = 300%Z /\
  (forall t : Q,
     (t <= 300)%Q ->
     exceeds t
       (max_seconds
          (self (snd (start_recording (Some 0%Z) None None
                        (__init__ 16000 1 1024
                           (fresh_world all_good ticking_clock))))))
     = false) /\
  (forall n : Z,
     n <> 0%Z -> is_recording (self fresh_recorder) = false ->
     max_seconds
       (self (snd (start_recording (Some n) None None fresh_recorder)))
     = n).
Proof.
  split.
  - right. reflexivity.
  - apply (C9_falsy_max_seconds_keeps_limit fresh_recorder (Some 0%Z)
             None None 16000 1 1024 (fresh_world all_good ticking_clock)).
    right. reflexivity.
Defined.

(** A recording started with [max_seconds=0] goes on: after the first two
    steps of its reader, two seconds after its start, the flag is still
    set, two frames are captured and the reader is in its loop. *)
Example start_with_zero_goes_on :
  let s := run [StartRecording (Some 0%Z) None None;
                ThreadStep 0; ThreadStep 0] ticking_recorder in
  is_recording (self s) = true /\
  length (frames (self s)) = 2 /\
  th_pc <$> threads s !! 0 = Some Loop.
Proof. vm_compute. repeat split; reflexivity. Qed.

(** C10.  When [self.pyaudio.open] raises in [start_recording] (called
    while not recording), the call returns [False], the frames of the
    session before are gone, the flag is clear, and [save_wav] then
    returns [False] without touching anything. *)
Theorem C10_failed_open_discards_frames (s : state) (arg : option Z)
    (callback_fn level_callback_arg : option callback) (file_path : string) :
  is_recording (self s) = false ->
  open_raises s = true ->
  fst (start_recording arg callback_fn level_callback_arg s) = Returns false /\
  frames (self (snd (start_recording arg callback_fn level_callback_arg s)))
    = [] /\
  is_recording
    (self (snd (start_recording arg callback_fn level_callback_arg s)))
    = false /\
  save_wav file_path
    (snd (start_recording arg callback_fn level_callback_arg s))
  = (Returns false,
     snd (start_recording arg callback_fn level_callback_arg s)).
Proof.
  intros Hrec Hopen.
  assert (H : fst (start_recording arg callback_fn level_callback_arg s)
              = Returns false /\
              frames (self (snd (start_recording arg callback_fn
                                   level_callback_arg s))) = [] /\
              is_recording (self (snd (start_recording arg callback_fn
                                         level_callback_arg s))) = false).
  { destruct s as [me w ts]. destruct me, w. run_method. subst.
    split_hyps; split_cases; try congruence; repeat split; reflexivity. }
  destruct H as (H1 & H2 & H3).
  split; [exact H1 |]. split; [exact H2 |]. split; [exact H3 |].
  now apply save_wav_no_frames.
Qed.

Lemma C10_failed_open_discards_frames_witness :
  is_recording (self recorder_with_frame) = false /\
  open_raises recorder_with_frame = true /\
  frames (self recorder_with_frame) = [[x00; x00]] /\
  fst (start_recording None None None recorder_with_frame) = Returns false /\
  frames (self (snd (start_recording None None None recorder_with_frame)))
    = [] /\
  is_recording
    (self (snd (start_recording None None None recorder_with_frame)))
    = false /\
  save_wav "out.wav" (snd (start_recording None None None recorder_with_frame))
  = (Returns false, snd (start_recording None None None recorder_with_frame)).
Proof.
  split; [reflexivity |]. split; [reflexivity |]. split; [reflexivity |].
  apply (C10_failed_open_discards_frames recorder_with_frame None None None
           "out.wav"); reflexivity.
Defined.

(** When the format can be declared and the three calls of the [wave]
    module succeed, [save_wav] returns [True] and the file is the
    container of the frames. *)
Lemma save_wav_success (s : state) (file_path : string) :
  frames (self s) <> [] ->
  wav_format_ok s = true ->
  writes_succeed s = true ->
  exists s',
    save_wav file_path s = (Returns true, s') /\
    fs (env s') =
      <[file_path := Wav {| wav_nchannels := channels (self s);
                            wav_sampwidth := 2;
                            wav_framerate := sample_rate (self s);
                            wav_payload := concat (frames (self s)) |}]>
        (fs (env s)) /\
    self s' = self s.
Proof.
  intros Hne Hfmt Hio.
  unfold writes_succeed in Hio.
  apply andb_prop in Hio as [Hio H2]. apply andb_prop in Hio as [H0 H1].
  apply succeeds_good in H0 as [d0 H0], H1 as [d1 H1], H2 as [d2 H2].
  unfold wav_format_ok in Hfmt.
  apply andb_prop in Hfmt as [Hfmt Hfits].
  apply andb_prop in Hfmt as [Hch Hsr].
  apply Z.leb_le in Hch. apply Z.ltb_lt in Hsr.
  destruct s as [me w ts]. destruct me as [sr ch ck pa st fr rec th mx lv], w.
  cbn [self env frames channels sample_rate oracle cursor fs] in *.
  replace (cursor0 + 0) with cursor0 in H0 by lia.
  replace (cursor0 + 1) with (S cursor0) in H1 by lia.
  replace (cursor0 + 2) with (S (S cursor0)) in H2 by lia.
  destruct fr as [| f fr]; [congruence |].
  assert (Hch' : (ch <? 1)%Z = false) by (apply Z.ltb_ge; lia).
  assert (Hsr' : (sr <=? 0)%Z = false) by (apply Z.leb_gt; lia).
  eexists. split; [| split].
  - unfold save_wav. change (setsampwidth 2) with (@ret Z 2%Z).
    run_method. rewrite H0. run_method. rewrite Hch'. run_method.
    rewrite Hsr'. run_method. rewrite Hfits. run_method.
    rewrite H1. run_method. rewrite H2. run_method.
    reflexivity.
  - run_method. apply insert_insert_eq.
  - reflexivity.
Qed.

(** In every other case with a frame captured, [save_wav] returns
    [False]: it never raises. *)
Lemma save_wav_failure (s : state) (file_path : string) :
  frames (self s) <> [] ->
  wav_format_ok s && writes_succeed s = false ->
  fst (save_wav file_path s) = Returns false.
Proof.
  intros Hne H.
  unfold wav_format_ok, writes_succeed, succeeds in H.
  destruct s as [me w ts]. destruct me as [sr ch ck pa st fr rec th mx lv], w.
  cbn [self env frames channels sample_rate oracle cursor fs] in *.
  replace (cursor0 + 0) with cursor0 in H by lia.
  replace (cursor0 + 1) with (S cursor0) in H by lia.
  replace (cursor0 + 2) with (S (S cursor0)) in H by lia.
  rewrite (Z.leb_antisym ch 1), (Z.ltb_antisym sr 0) in H.
  destruct fr as [| f fr]; [congruence |].
  unfold save_wav. change (setsampwidth 2) with (@ret Z 2%Z).
  repeat step. all: run_method.
  all: first [reflexivity | discriminate H].
Qed.

(** C3, as the code has it.  With at least one frame captured:
    when the channel count and the sample rate can be declared in a WAV
    header and [wave.open], [writeframes] and [close] all succeed,
    [save_wav] returns [True] and the file at the path is the WAV
    container that declares the configured channel count, 2 bytes (16
    bits) per sample and the configured sample rate, with the frames
    concatenated in capture order as its payload; the payload is as long
    as the frames together, and the recorder is unchanged.  In every other
    case [save_wav] returns [False]. *)
Theorem C3_save_wav_writes_frames (s : state) (file_path : string) :
  frames (self s) <> [] ->
  (wav_format_ok s = true ->
   writes_succeed s = true ->
   exists s',
     save_wav file_path s = (Returns true, s') /\
     fs (env s') =
       <[file_path := Wav {| wav_nchannels := channels (self s);
                             wav_sampwidth := 2;
                             wav_framerate := sample_rate (self s);
                             wav_payload := concat (frames (self s)) |}]>
         (fs (env s)) /\
     length (concat (frames (self s)))
       = list_sum (map (@length byte) (frames (self s))) /\
     self s' = self s) /\
  (wav_format_ok s && writes_succeed s = false ->
   fst (save_wav file_path s) = Returns false).
Proof.
  intros Hne. split.
  - intros Hfmt Hio.
    destruct (save_wav_success s file_path Hne Hfmt Hio)
      as (s' & Hs & Hfs & Hself).
    exists s'. split; [exact Hs |]. split; [exact Hfs |].
    split; [apply length_concat | exact Hself].
  - now apply save_wav_failure.
Qed.

Lemma C3_save_wav_writes_frames_witness :
  frames (self recorded) <> [] /\
  (wav_format_ok recorded = true ->
   writes_succeed recorded = true ->
   exists s',
     save_wav "out.wav" recorded = (Returns true, s') /\
     fs (env s') =
       <["out.wav" := Wav {| wav_nchannels := channels (self recorded);
                             wav_sampwidth := 2;
                             wav_framerate := sample_rate (self recorded);
                             wav_payload := concat (frames (self recorded)) |}]>
         (fs (env recorded)) /\
     length (concat (frames (self recorded)))
       = list_sum (map (@length byte) (frames (self recorded))) /\
     self s' = self recorded) /\
  (wav_format_ok recorded && writes_succeed recorded = false ->
   fst (save_wav "out.wav" recorded) = Returns false).
Proof.
  split; [discriminate |].
  apply (C3_save_wav_writes_frames recorded "out.wav").
  discriminate.
Defined.

(** What the session of [recorded] captured and what is saved of it. *)
Example recorded_session_saved :
  frames (self recorded) = [[x00; x00]; [x00; x00]] /\
  wav_format_ok recorded = true /\
  writes_succeed recorded = true /\
  fst (save_wav "out.wav" recorded) = Returns true /\
  fs (env (snd (save_wav "out.wav" recorded))) !! "out.wav" =
    Some (Wav {| wav_nchannels := 1; wav_sampwidth := 2;
                 wav_framerate := 16000;
                 wav_payload := [x00; x00; x00; x00] |}).
Proof. vm_compute. repeat split; reflexivity. Qed.

(** C3 as stated fails: a recorder holds a frame, [wave.open] raises (the
    directory of the path does not exist, say); [save_wav] returns [False]
    and there is no file at the path. *)
Lemma C3_save_wav_returns_false_on_io_error :
  frames (self recorder_with_frame) <> [] /\
  fst (save_wav "out.wav" recorder_with_frame) = Returns false /\
  fs (env (snd (save_wav "out.wav" recorder_with_frame))) !! "out.wav" = None.
Proof.
  split; [discriminate |]. vm_compute. split; reflexivity.
Qed.

(** C8.  [pre_initialize] always returns a Boolean, whatever the device
    calls do.  When it returns [True], the calls it made are, after
    [pyaudio.PyAudio()] if that was still to do: one [open] with the
    configured format, one [read] of [chunk] samples on the stream opened,
    [stop_stream] and [close] on it, all successful, and that stream is
    not open afterwards.  When it returns [False], the last call it made
    raised. *)
Theorem C8_pre_initialize_never_raises (s : state) :
  exists (b : bool) (s' : state),
    pre_initialize s = (Returns b, s') /\
    (b = true ->
       calls_since s s' =
         (if pyaudio (self s) then [] else [(PyAudioNew, true)]) ++
         [(PaOpen (channels (self s)) (sample_rate (self s)) (chunk (self s)),
           true);
          (StreamRead (next_handle (env s)) (chunk (self s)), true);
          (StopStream (next_handle (env s)), true);
          (StreamClose (next_handle (env s)), true)] /\
       next_handle (env s) ∉ open_streams (env s')) /\
    (b = false -> exists c, last (calls_since s s') = Some (c, false)).
Proof.
  destruct s as [me w ts]. destruct me as [sr ch ck pa st fr rec th mx lv], w.
  unfold calls_since.
  repeat step.
  all: run_method.
  all: do 2 eexists; (split; [reflexivity |]); split; intros Hb;
    try discriminate Hb.
  all: rewrite <- ?app_assoc, drop_app_length; cbn [app].
  all: first [ split; [reflexivity | apply not_elem_of_difference; right;
                                     apply elem_of_singleton; reflexivity ]
             | eexists; reflexivity ].
Qed.

(** On a recorder just made, with a device that works, the warm-up
    returns [True] and leaves no stream open. *)
Example pre_initialize_fresh :
  fst (pre_initialize fresh_recorder) = Returns true /\
  open_count (snd (pre_initialize fresh_recorder)) = 0 /\
  calls_since fresh_recorder (snd (pre_initialize fresh_recorder)) =
    [(PaOpen 1 16000 1024, true); (StreamRead 0 1024, true);
     (StopStream 0, true); (StreamClose 0, true)].
Proof. vm_compute. repeat split; reflexivity. Qed.

(** When the read of the warm-up fails the test stream stays open. *)
Example pre_initialize_failed_read_leaves_stream :
  let s := with_env (set_cursor 4) failing_recorder in
  fst (pre_initialize s) = Returns false /\
  open_count (snd (pre_initialize s)) = 1.
Proof. vm_compute. split; reflexivity. Qed.

(** C1.  A device that works and a limit of 300 s.  The recording is
    started; its reader captures a frame and, 1000 s later, leaves its loop
    on the duration test.  Then the flag is clear and stream 0 is still
    open; [stop_recording] returns [False] and changes nothing; and
    [start_recording] returns [True] with a second stream: streams 0 and 1
    are open together. *)
Theorem C1_restart_after_timeout_leaks_stream :
  (is_recording
     (self (run [StartRecording None None None; ThreadStep 0; ThreadStep 0]
              fresh_recorder)) = false /\
   stream
     (self (run [StartRecording None None None; ThreadStep 0; ThreadStep 0]
              fresh_recorder)) = Some 0 /\
   open_streams
     (env (run [StartRecording None None None; ThreadStep 0; ThreadStep 0]
             fresh_recorder)) = {[0]}) /\
  stop_recording 1
    (run [StartRecording None None None; ThreadStep 0; ThreadStep 0]
       fresh_recorder)
  = (Returns false,
     run [StartRecording None None None; ThreadStep 0; ThreadStep 0]
       fresh_recorder) /\
  fst (start_recording None None None
         (run [StartRecording None None None; ThreadStep 0; ThreadStep 0]
            fresh_recorder)) = Returns true /\
  open_streams
    (env (run [StartRecording None None None; ThreadStep 0; ThreadStep 0;
               StopRecording 1; StartRecording None None None]
            fresh_recorder)) = {[0; 1]} /\
  open_count
    (run [StartRecording None None None; ThreadStep 0; ThreadStep 0;
          StopRecording 1; StartRecording None None None]
       fresh_recorder) = 2.
Proof. vm_compute. repeat split; reflexivity. Qed.

(** The same after a read error: the second read of the reader raises. *)
Example restart_after_read_error_leaks_stream :
  is_recording
    (self (run [StartRecording None None None; ThreadStep 0; ThreadStep 0]
             failing_recorder)) = false /\
  open_count
    (run [StartRecording None None None; ThreadStep 0; ThreadStep 0;
          StartRecording None None None]
       failing_recorder) = 2.
Proof. vm_compute. split; reflexivity. Qed.

(** A session ended by [stop_recording] leaves no stream open. *)
Example stopped_session_closes_stream :
  open_count recorded = 0 /\ stream (self recorded) = None.
Proof. vm_compute. split; reflexivity. Qed.

(** ** The recording flag and the stream stay consistent *)

Ltac run_thread :=
  cbv beta iota zeta delta
    [thread_step record_entry record_iteration record_finally
     get_thread set_thread set_pc append_frame read_self_stream time_time
     th_pc start_time frame_count] in *;
  run_method.

(** Symbolic execution through every branch. *)
Ltac crunch :=
  repeat (run_thread;
          match goal with
          | |- context [match ?x with _ => _ end] =>
              lazymatch x with
              | context [match _ with _ => _ end] => fail
              | _ => destruct x eqn:?
              end
          end);
  run_thread.

Lemma thread_step_quiet (tid : nat) : quiet (thread_step tid).
Proof.
  intros s. destruct s as [me w ts].
  destruct me as [sr ch ck pa st fr rec th mx lv], w.
  crunch.
  all: do 2 eexists; (split; [reflexivity |]).
  all: repeat split; try reflexivity; try discriminate; try congruence.
Qed.

Lemma quiet_ret {A} (a : A) : quiet (ret a).
Proof. intros s. exists a, s. repeat split; auto. Qed.

Lemma quiet_bind {A B} (m : M A) (k : A -> M B) :
  quiet m -> (forall a, quiet (k a)) -> quiet (bind m k).
Proof.
  intros Hm Hk s. unfold bind.
  destruct (Hm s) as (a & s1 & -> & Ho & Hn & Hs & Hf).
  destruct (Hk a s1) as (b & s2 & -> & Ho' & Hn' & Hs' & Hf').
  exists b, s2. repeat split; try congruence. auto.
Qed.

Lemma thread_join_quiet (tid patience : nat) :
  quiet (thread_join tid patience).
Proof.
  induction patience as [| p IH]; cbn [thread_join];
    (apply quiet_bind; [intros s; exists (default idle_thread (threads s !! tid)), s; repeat split; auto |]);
    intros t; destruct (th_pc t); try apply quiet_ret.
  all: apply quiet_bind; [apply thread_step_quiet | intros _; apply IH].
Qed.

Lemma quiet_leads_consistent {A} (m : M A) :
  quiet m -> leads consistent m consistent.
Proof.
  intros Hm s [Hfresh Hflag].
  destruct (Hm s) as (a & s' & Hs & Ho & Hn & Hst & Hf).
  exists a, s'. split; [exact Hs |]. split.
  - intros h. rewrite Ho, Hn. apply Hfresh.
  - intros Hrec. rewrite Ho, Hst. apply Hflag, Hf, Hrec.
Qed.

Lemma quiet_leads_stopping {A} (m : M A) :
  quiet m -> leads stopping m stopping.
Proof.
  intros Hm s [Hfresh Hflag].
  destruct (Hm s) as (a & s' & Hs & Ho & Hn & Hst & Hf).
  exists a, s'. split; [exact Hs |]. split.
  - intros h. rewrite Ho, Hn. apply Hfresh.
  - destruct (is_recording (self s')) eqn:E; [| reflexivity].
    rewrite <- Hflag. symmetry. now apply Hf.
Qed.

Lemma leads_bind {A B} (P Q R : state -> Prop) (m : M A) (k : A -> M B) :
  leads P m Q -> (forall a, leads Q (k a) R) -> leads P (bind m k) R.
Proof.
  intros Hm Hk s HP. unfold bind.
  destruct (Hm s HP) as (a & s1 & -> & HQ).
  exact (Hk a s1 HQ).
Qed.


Lemma stopping_consistent (s : state) : stopping s -> consistent s.
Proof.
  intros [Hfresh Hflag]. split; [exact Hfresh |].
  intros Hrec. congruence.
Qed.

Lemma read_if_no_frames_quiet : quiet read_if_no_frames.
Proof.
  intros s. destruct s as [me w ts].
  destruct me as [sr ch ck pa st fr rec th mx lv], w.
  crunch.
  all: do 2 eexists; (split; [reflexivity |]).
  all: repeat split; try reflexivity; try discriminate; try congruence.
Qed.

Lemma join_recording_thread_quiet (patience : nat) :
  quiet (join_recording_thread patience).
Proof.
  unfold join_recording_thread. apply quiet_bind.
  - intros s. exists (self s), s. repeat split; auto.
  - intros me. destruct (recording_thread me);
      [apply thread_join_quiet | apply quiet_ret].
Qed.

Lemma clear_flag_leads : leads consistent (assign (set_is_recording false)) stopping.
Proof.
  intros s [Hfresh _]. destruct s as [me w ts]. destruct me, w.
  do 2 eexists. split; [reflexivity |]. split; [exact Hfresh | reflexivity].
Qed.

Lemma close_stream_leads : leads stopping close_stream stopping.
Proof.
  intros s [Hfresh Hflag]. destruct s as [me w ts].
  destruct me as [sr ch ck pa st fr rec th mx lv], w.
  unfold stopping, handles_fresh in *.
  crunch.
  all: do 2 eexists; (split; [reflexivity |]).
  all: split; [| assumption || reflexivity].
  all: intros h' Hin; apply Hfresh;
    try (apply elem_of_difference in Hin as [Hin _]); exact Hin.
Qed.

Lemma stop_recording_consistent (patience : nat) :
  leads consistent (stop_recording patience) consistent.
Proof.
  intros s Hs. unfold stop_recording.
  unfold bind at 1, get_self at 1.
  destruct (is_recording (self s)); cbn [negb].
  - revert s Hs.
    apply leads_bind with (Q := consistent);
      [apply quiet_leads_consistent, read_if_no_frames_quiet | intros _].
    apply leads_bind with (Q := stopping); [apply clear_flag_leads | intros _].
    apply leads_bind with (Q := stopping);
      [apply quiet_leads_stopping, join_recording_thread_quiet | intros _].
    apply leads_bind with (Q := stopping); [apply close_stream_leads | intros _].
    intros s Hs. exists true, s. split; [reflexivity |].
    now apply stopping_consistent.
  - exists false, s. split; [reflexivity | exact Hs].
Qed.

Lemma start_recording_consistent (arg : option Z)
    (callback_fn level_callback_arg : option callback) :
  leads consistent (start_recording arg callback_fn level_callback_arg)
        consistent.
Proof.
  intros s [Hfresh Hflag]. destruct s as [me w ts].
  destruct me as [sr ch ck pa st fr rec th mx lv], w.
  unfold consistent, handles_fresh, flag_consistent in *.
  crunch.
  all: do 2 eexists; (split; [reflexivity |]).
  all: split; try assumption.
  all: first
    [ intros Hf; discriminate Hf
    | intros _; eexists; split;
        [reflexivity | apply elem_of_union_l, elem_of_singleton; reflexivity]
    | intros h' Hin; apply elem_of_union in Hin as [Hin | Hin];
        [apply elem_of_singleton in Hin; lia
        | specialize (Hfresh h' Hin); lia] ].
Qed.

Lemma pre_initialize_consistent : leads consistent pre_initialize consistent.
Proof.
  intros s [Hfresh Hflag]. destruct s as [me w ts].
  destruct me as [sr ch ck pa st fr rec th mx lv], w.
  unfold consistent, handles_fresh, flag_consistent in *.
  repeat step. all: run_method.
  all: do 2 eexists; (split; [reflexivity |]).
  all: split; try assumption.
  all: try (intros h' Hin;
            try (apply elem_of_difference in Hin as [Hin _]);
            apply elem_of_union in Hin as [Hin | Hin];
            [apply elem_of_singleton in Hin; lia
            | specialize (Hfresh h' Hin); lia]).
  all: intros Hrec; destruct (Hflag Hrec) as (h' & -> & Hin);
    exists h'; (split; [reflexivity |]); specialize (Hfresh h' Hin).
  all: try (apply elem_of_difference; split;
            [| intros Heq; apply elem_of_singleton in Heq; lia]).
  all: apply elem_of_union_r, Hin.
Qed.

Lemma save_wav_quiet (file_path : string) : quiet (save_wav file_path).
Proof.
  intros s. destruct s as [me w ts].
  destruct me as [sr ch ck pa st fr rec th mx lv], w.
  crunch.
  all: do 2 eexists; (split; [reflexivity |]).
  all: repeat split; try reflexivity; try discriminate; try congruence.
Qed.

(** Every action keeps the state consistent, and none raises. *)
Lemma perform_consistent (a : action) : leads consistent (perform a) consistent.
Proof.
  destruct a; cbn [perform].
  - apply leads_bind with (Q := consistent);
      [apply pre_initialize_consistent | intros _ s Hs; exists tt, s; auto].
  - apply leads_bind with (Q := consistent);
      [apply start_recording_consistent | intros _ s Hs; exists tt, s; auto].
  - apply leads_bind with (Q := consistent);
      [apply stop_recording_consistent | intros _ s Hs; exists tt, s; auto].
  - apply leads_bind with (Q := consistent);
      [apply quiet_leads_consistent, save_wav_quiet
      | intros _ s Hs; exists tt, s; auto].
  - apply quiet_leads_consistent, thread_step_quiet.
Qed.

Lemma run_consistent (acts : list action) (s : state) :
  consistent s -> consistent (run acts s).
Proof.
  revert s. induction acts as [| a acts IH]; intros s Hs; [exact Hs |].
  cbn [run fold_left]. apply IH.
  destruct (perform_consistent a s Hs) as (u & s' & -> & Hs'). exact Hs'.
Qed.

Lemma init_consistent (sr ch ck : Z) (oracle : nat -> outcome)
    (clock : nat -> Q) :
  consistent (__init__ sr ch ck (fresh_world oracle clock)).
Proof.
  unfold fresh_world. run_method. split_cases.
  all: split; [intros h Hh; set_solver | intros Hf; discriminate Hf].
Qed.

(** X6.  In every state reached from a new recorder by calls of
    [pre_initialize], [start_recording], [stop_recording], [save_wav] and
    steps of the reader threads, a set recording flag comes with an open
    stream held in [self.stream]. *)
Theorem recording_implies_open_stream (sr ch ck : Z)
    (oracle : nat -> outcome) (clock : nat -> Q) (acts : list action) :
  let s := run acts (__init__ sr ch ck (fresh_world oracle clock)) in
  is_recording (self s) = true ->
  exists h, stream (self s) = Some h /\ h ∈ open_streams (env s).
Proof.
  intros s. apply (run_consistent acts), init_consistent.
Qed.


(** ** Further properties of the recorder *)

Lemma grows_ret {A} (a : A) : grows (ret a).
Proof. intros s. exists a, s. split; [reflexivity | done]. Qed.

Lemma grows_bind {A B} (m : M A) (k : A -> M B) :
  grows m -> (forall a, grows (k a)) -> grows (bind m k).
Proof.
  intros Hm Hk s. unfold bind.
  destruct (Hm s) as (a & s1 & -> & H1).
  destruct (Hk a s1) as (b & s2 & -> & H2).
  exists b, s2. split; [reflexivity | by etrans].
Qed.

Ltac solve_prefix :=
  first [ done
        | match goal with
          | |- ?l `prefix_of` ?l ++ _ => apply prefix_app_r; done
          end ].

Lemma thread_step_grows (tid : nat) : grows (thread_step tid).
Proof.
  intros s. destruct s as [me w ts].
  destruct me as [sr ch ck pa st fr rec th mx lv], w.
  crunch.
  all: do 2 eexists; (split; [reflexivity |]); run_thread.
  all: solve_prefix.
Qed.

Lemma thread_join_grows (tid patience : nat) :
  grows (thread_join tid patience).
Proof.
  induction patience as [| p IH]; cbn [thread_join];
    (apply grows_bind;
     [intros s; exists (default idle_thread (threads s !! tid)), s;
      split; [reflexivity | done] |]);
    intros t; destruct (th_pc t); try apply grows_ret.
  all: apply grows_bind; [apply thread_step_grows | intros _; apply IH].
Qed.

Lemma read_if_no_frames_grows : grows read_if_no_frames.
Proof.
  intros s. destruct s as [me w ts].
  destruct me as [sr ch ck pa st fr rec th mx lv], w.
  crunch.
  all: do 2 eexists; (split; [reflexivity |]); run_thread.
  all: first [solve_prefix | apply prefix_nil].
Qed.


(** What [close_stream] does: nothing without a stream; with one, either
    both calls succeed, the stream is closed and [self.stream] reset, or a
    call raises (the last call of the trace, unless the stream was not
    open at all) and stream and field stay as they are. *)
Lemma close_stream_cases (s : state) :
  exists s',
    close_stream s = (Returns tt, s') /\
    frames (self s') = frames (self s) /\
    is_recording (self s') = is_recording (self s) /\
    threads s' = threads s /\
    fs (env s') = fs (env s) /\
    match stream (self s) with
    | None => s' = s
    | Some h =>
        (h ∈ open_streams (env s) /\ stream (self s') = None /\
         open_streams (env s') = open_streams (env s) ∖ {[h]} /\
         calls_since s s' = [(StopStream h, true); (StreamClose h, true)])
        \/
        (stream (self s') = Some h /\
         open_streams (env s') = open_streams (env s) /\
         (h ∈ open_streams (env s) ->
          last (trace (env s')) = Some (StopStream h, false) \/
          last (trace (env s')) = Some (StreamClose h, false)))
    end.
Proof.
  destruct s as [me w ts].
  destruct me as [sr ch ck pa st fr rec th mx lv], w.
  unfold calls_since. crunch.
  all: eexists; (split; [reflexivity |]); run_thread.
  all: repeat (split; [reflexivity |]).
  all: try reflexivity.
  all: try (left; split;
            [match goal with
             | H : bool_decide _ = true |- _ =>
                 exact (bool_decide_eq_true_1 _ H)
             end |];
            rewrite <- app_assoc, drop_app_length;
            repeat split; reflexivity).
  all: right; (split; [reflexivity |]); (split; [reflexivity |]); intros Hin.
  all: try (left; apply last_snoc).
  all: try (right; apply last_snoc).
  all: match goal with
       | H : bool_decide _ = false |- _ =>
           exfalso; exact (bool_decide_eq_false_1 _ H Hin)
       end.
Qed.

Lemma join_recording_thread_grows (patience : nat) :
  grows (join_recording_thread patience).
Proof.
  unfold join_recording_thread. apply grows_bind.
  - intros s. exists (self s), s. split; [reflexivity | done].
  - intros me. destruct (recording_thread me);
      [apply thread_join_grows | apply grows_ret].
Qed.

(** [stop_recording] on a set flag, up to the closing of the stream: the
    state [s1] after the additional read and the state [s3] after the
    join. *)
Lemma stop_recording_parts (patience : nat) (s : state) :
  is_recording (self s) = true ->
  exists s1 s3 s4,
    read_if_no_frames s = (Returns tt, s1) /\
    close_stream s3 = (Returns tt, s4) /\
    stop_recording patience s = (Returns true, s4) /\
    open_streams (env s3) = open_streams (env s) /\
    stream (self s3) = stream (self s) /\
    is_recording (self s3) = false /\
    frames (self s) `prefix_of` frames (self s1) /\
    frames (self s1) `prefix_of` frames (self s3).
Proof.
  intros Hrec.
  destruct (read_if_no_frames_quiet s) as ([] & s1 & H1 & O1 & _ & S1 & _).
  destruct (read_if_no_frames_grows s) as (u & s1' & E1 & P1).
  assert (s1' = s1) by congruence. subst s1'. clear E1 u.
  set (s2 := with_self (set_is_recording false) s1).
  destruct (join_recording_thread_quiet patience s2)
    as ([] & s3 & H3 & O3 & _ & S3 & F3).
  destruct (join_recording_thread_grows patience s2) as (u & s3' & E3 & P3).
  assert (s3' = s3) by congruence. subst s3'. clear E3 u.
  destruct (close_stream_cases s3) as (s4 & H4 & _).
  assert (Hs2 : open_streams (env s2) = open_streams (env s1) /\
                stream (self s2) = stream (self s1) /\
                is_recording (self s2) = false /\
                frames (self s2) = frames (self s1))
    by (subst s2; destruct s1 as [[] ? ?]; repeat split).
  destruct Hs2 as (Ho2 & Hs2 & Hf2 & Hfr2).
  exists s1, s3, s4.
  split; [exact H1 |]. split; [exact H4 |].
  split.
  { unfold stop_recording, bind, get_self. rewrite Hrec. cbn [negb].
    rewrite H1. unfold assign, modify. fold s2. rewrite H3, H4. reflexivity. }
  split; [congruence |]. split; [congruence |].
  split.
  { destruct (is_recording (self s3)); [| reflexivity].
    rewrite <- Hf2. symmetry. now apply F3. }
  split; [exact P1 |]. now rewrite <- Hfr2.
Qed.

(** X13.  [stop_recording] never raises and returns what the recording flag
    was; afterwards the flag is clear; the frames held before are a prefix
    of the frames held after; and a call on a clear flag changes
    nothing. *)
Theorem stop_recording_clears_flag (patience : nat) (s : state) :
  exists s',
    stop_recording patience s = (Returns (is_recording (self s)), s') /\
    is_recording (self s') = false /\
    frames (self s) `prefix_of` frames (self s') /\
    (is_recording (self s) = false -> s' = s).
Proof.
  destruct (is_recording (self s)) eqn:Hrec.
  - destruct (stop_recording_parts patience s Hrec)
      as (s1 & s3 & s4 & H1 & H4 & Hstop & _ & _ & Hf3 & P1 & P3).
    destruct (close_stream_cases s3) as (s4' & E4 & Hfr & Hfl & _).
    assert (s4' = s4) by congruence. subst s4'.
    exists s4. split; [exact Hstop |].
    split; [congruence |]. split; [| discriminate].
    rewrite Hfr. by etrans.
  - exists s. split; [| repeat split; try done].
    unfold stop_recording, bind, get_self. now rewrite Hrec.
Qed.

(** X14.  With the flag set and an open stream in [self.stream],
    [stop_recording] returns [True] and either closes that stream and
    resets [self.stream], or leaves both as they were because
    [stop_stream] or [close] raised: that failing call is then the last
    one made. *)
Theorem stop_recording_closes_stream (patience : nat) (s : state)
    (h : handle) :
  is_recording (self s) = true ->
  stream (self s) = Some h ->
  h ∈ open_streams (env s) ->
  exists s',
    stop_recording patience s = (Returns true, s') /\
    ((stream (self s') = None /\
      open_streams (env s') = open_streams (env s) ∖ {[h]})
     \/
     (stream (self s') = Some h /\
      open_streams (env s') = open_streams (env s) /\
      (last (trace (env s')) = Some (StopStream h, false) \/
       last (trace (env s')) = Some (StreamClose h, false)))).
Proof.
  intros Hrec Hst Hin.
  destruct (stop_recording_parts patience s Hrec)
    as (s1 & s3 & s4 & H1 & H4 & Hstop & Hop3 & Hst3 & _).
  exists s4. split; [exact Hstop |].
  destruct (close_stream_cases s3) as (s4' & E4 & _ & _ & _ & _ & Hcases).
  assert (s4' = s4) by congruence. subst s4'.
  rewrite Hst3, Hst in Hcases. rewrite <- Hop3.
  destruct Hcases as [(_ & Hn & Ho & _) | (Hs & Ho & Hl)].
  - left. split; assumption.
  - right. split; [exact Hs |]. split; [exact Ho |].
    apply Hl. rewrite Hop3. exact Hin.
Qed.

(** X7.  [start_recording] on a clear flag never raises.  When it returns
    [True], every call it made succeeded: [pyaudio.PyAudio()] if that was
    still to do, [open] with the configured format, then [callback_fn] if
    one was given; the flag is set, no frame is held, [self.stream] is the
    stream just opened, the level callback is stored, and one reader
    thread more exists, not yet run.  When it returns [False], the last
    call it made raised, the flag is clear, no frame is held and no thread
    was added. *)
Theorem start_recording_outcome (s : state) (arg : option Z)
    (callback_fn level_callback_arg : option callback) :
  is_recording (self s) = false ->
  exists (b : bool) (s' : state),
    start_recording arg callback_fn level_callback_arg s = (Returns b, s') /\
    frames (self s') = [] /\
    is_recording (self s') = b /\
    level_callback (self s') = level_callback_arg /\
    (b = true ->
       calls_since s s' =
         (if pyaudio (self s) then [] else [(PyAudioNew, true)]) ++
         [(PaOpen (channels (self s)) (sample_rate (self s)) (chunk (self s)),
           true)] ++
         match callback_fn with
         | Some f => [(Invoke f, true)]
         | None => []
         end /\
       stream (self s') = Some (next_handle (env s)) /\
       open_streams (env s') = {[next_handle (env s)]} ∪ open_streams (env s) /\
       recording_thread (self s') = Some (length (threads s)) /\
       threads s' =
         threads s ++ [{| th_pc := Entry; start_time := 0%Q;
                          frame_count := 0 |}]) /\
    (b = false ->
       (exists c, last (calls_since s s') = Some (c, false)) /\
       threads s' = threads s).
Proof.
  intros Hrec.
  destruct s as [me w ts]. destruct me as [sr ch ck pa st fr rec th mx lv], w.
  cbn [self is_recording] in Hrec. subst rec.
  unfold calls_since. destruct callback_fn as [f |].
  all: repeat step. all: run_method.
  all: do 2 eexists; (split; [reflexivity |]); run_method.
  all: repeat (split; [reflexivity |]).
  all: split; intros Hb; try discriminate Hb.
  all: rewrite <- ?app_assoc, drop_app_length; cbn [app].
  all: first [ repeat split; reflexivity
             | split; [eexists; reflexivity | reflexivity] ].
Qed.

(** X8.  When [callback_fn] raises, [start_recording] returns [False] with
    the flag clear and no reader thread, but the stream it has just opened
    stays open and stays in [self.stream]. *)
Theorem start_recording_callback_failure_keeps_stream (s : state)
    (arg : option Z) (f : callback) (level_callback_arg : option callback) :
  is_recording (self s) = false ->
  pyaudio (self s) = true ->
  succeeds 0 s = true ->
  succeeds 1 s = false ->
  exists s',
    start_recording arg (Some f) level_callback_arg s = (Returns false, s') /\
    is_recording (self s') = false /\
    threads s' = threads s /\
    stream (self s') = Some (next_handle (env s)) /\
    open_streams (env s') = {[next_handle (env s)]} ∪ open_streams (env s) /\
    last (trace (env s')) = Some (Invoke f, false).
Proof.
  intros Hrec Hpa H0 H1.
  destruct s as [me w ts]. destruct me as [sr ch ck pa st fr rec th mx lv], w.
  unfold succeeds in *.
  cbn [self env is_recording pyaudio oracle cursor] in *. subst rec pa.
  replace (cursor0 + 0) with cursor0 in H0 by lia.
  replace (cursor0 + 1) with (S cursor0) in H1 by lia.
  destruct (oracle0 cursor0) as [d0 |] eqn:E0; [| discriminate H0].
  destruct (oracle0 (S cursor0)) as [d1 |] eqn:E1; [discriminate H1 |].
  destruct (truthy arg) eqn:Harg.
  all: eexists; split;
    [ run_method; rewrite Harg; run_method; rewrite E0; run_method;
      rewrite E1; run_method; reflexivity
    | run_method; repeat split; apply last_snoc ].
Qed.

(** Execution at a thread known by its index. *)
Ltac at_thread Hlk :=
  repeat (progress (run_thread; cbv beta iota delta [from_option Datatypes.id];
                    rewrite ?Hlk));
  run_thread.


(** X9.  A step of a reader thread never raises, whatever the device and
    the level callback do; it opens and closes no stream and leaves
    [self.stream] alone; it never sets the recording flag; and it keeps
    the frames held, adding at most at their end. *)
Theorem reader_never_touches_streams (tid : nat) (s : state) :
  exists s',
    thread_step tid s = (Returns tt, s') /\
    open_streams (env s') = open_streams (env s) /\
    stream (self s') = stream (self s) /\
    (is_recording (self s') = true -> is_recording (self s) = true) /\
    frames (self s) `prefix_of` frames (self s').
Proof.
  destruct (thread_step_quiet tid s) as ([] & s' & Hs & Ho & _ & Hst & Hf).
  destruct (thread_step_grows tid s) as (u & s'' & Hs' & Hp).
  assert (s'' = s') by congruence. subst s''.
  exists s'. repeat split; assumption.
Qed.



(** X11.  A reader in its loop, within the time limit, with the flag set and
    an open stream that delivers [data]: the frame is appended and counted.
    The level callback is called, with the level of that frame, exactly
    when one is set and the new frame count is even; if it raises, the
    session ends (flag cleared, thread over); in every other case the flag
    stays set and the thread stays in its loop. *)
Theorem reader_reads_one_frame (s : state) (tid : nat) (t : thread)
    (h : handle) (data : bytes) :
  threads s !! tid = Some t ->
  th_pc t = Loop ->
  is_recording (self s) = true ->
  (clock (env s) (cursor (env s)) - start_time t
     <= inject_Z (max_seconds (self s)))%Q ->
  stream (self s) = Some h ->
  h ∈ open_streams (env s) ->
  oracle (env s) (S (cursor (env s))) = Good data ->
  exists s',
    thread_step tid s = (Returns tt, s') /\
    frames (self s') = frames (self s) ++ [data] /\
    frame_count <$> threads s' !! tid = Some (S (frame_count t)) /\
    match level_callback (self s) with
    | Some f =>
        if (S (frame_count t) mod 2 =? 0)%nat then
          calls_since s s' =
            [(StreamRead h (chunk (self s)), true);
             (InvokeLevel f data, succeeds 2 s)] /\
          is_recording (self s') = succeeds 2 s /\
          th_pc <$> threads s' !! tid
            = Some (if succeeds 2 s then Loop else Done)
        else
          calls_since s s' = [(StreamRead h (chunk (self s)), true)] /\
          is_recording (self s') = true /\
          th_pc <$> threads s' !! tid = Some Loop
    | None =>
        calls_since s s' = [(StreamRead h (chunk (self s)), true)] /\
        is_recording (self s') = true /\
        th_pc <$> threads s' !! tid = Some Loop
    end.
Proof.
  intros Hlk Hpc Hrec Hlim Hst Hin Hread. apply exceeds_within in Hlim.
  pose proof (lookup_lt_Some _ _ _ Hlk) as Hlen.
  apply (bool_decide_eq_true_2 _) in Hin.
  destruct s as [me w ts]. destruct me as [sr ch ck pa st fr rec th mx lv], w.
  destruct t as [p t0 n]. unfold succeeds, calls_since.
  cbn [self env threads is_recording max_seconds clock cursor th_pc
       start_time frame_count stream open_streams oracle level_callback
       chunk frames trace] in *.
  subst rec p st. replace (cursor0 + 2) with (S (S cursor0)) by lia.
  destruct lv as [f |];
    [destruct (S n mod 2 =? 0)%nat eqn:Ev;
       [destruct (oracle0 (S (S cursor0))) as [d2 |] eqn:E2 |] |].
  all: eexists; split;
    [ repeat (progress (at_thread Hlk;
                        rewrite ?Hlim, ?Hin, ?Hread, ?Ev, ?E2;
                        rewrite ?list_lookup_insert_eq
                          by (rewrite ?length_insert; exact Hlen)));
      reflexivity
    | run_thread; rewrite <- ?app_assoc, ?drop_app_length;
      rewrite ?list_lookup_insert_eq
        by (rewrite ?length_insert; exact Hlen);
      repeat split; reflexivity ].
Qed.

(** X12.  A reader in its loop, within the time limit, whose read raises:
    the session ends there; the flag is cleared, no frame is added, the
    thread is over and the stream is left open. *)
Theorem reader_stops_on_read_error (s : state) (tid : nat) (t : thread)
    (h : handle) :
  threads s !! tid = Some t ->
  th_pc t = Loop ->
  is_recording (self s) = true ->
  (clock (env s) (cursor (env s)) - start_time t
     <= inject_Z (max_seconds (self s)))%Q ->
  stream (self s) = Some h ->
  h ∈ open_streams (env s) ->
  oracle (env s) (S (cursor (env s))) = Bad ->
  exists s',
    thread_step tid s = (Returns tt, s') /\
    is_recording (self s') = false /\
    frames (self s') = frames (self s) /\
    stream (self s') = Some h /\
    open_streams (env s') = open_streams (env s) /\
    th_pc <$> threads s' !! tid = Some Done.
Proof.
  intros Hlk Hpc Hrec Hlim Hst Hin Hread. apply exceeds_within in Hlim.
  pose proof (lookup_lt_Some _ _ _ Hlk) as Hlen.
  pose proof Hin as Hopen. apply (bool_decide_eq_true_2 _) in Hin.
  destruct s as [me w ts]. destruct me as [sr ch ck pa st fr rec th mx lv], w.
  destruct t as [p t0 n].
  cbn [self env threads is_recording max_seconds clock cursor th_pc
       start_time frame_count stream open_streams oracle level_callback
       chunk frames trace] in *.
  subst rec p st.
  eexists; split;
    [ repeat (progress (at_thread Hlk; rewrite ?Hlim, ?Hin, ?Hread));
      reflexivity
    | run_thread; rewrite ?list_lookup_insert_eq by exact Hlen;
      repeat split; reflexivity ].
Qed.


Lemma pre_initialize_grows : grows pre_initialize.
Proof.
  intros s. destruct s as [me w ts].
  destruct me as [sr ch ck pa st fr rec th mx lv], w.
  repeat step. all: run_method.
  all: do 2 eexists; (split; [reflexivity |]); run_method; done.
Qed.

Lemma save_wav_grows (file_path : string) : grows (save_wav file_path).
Proof.
  intros s. destruct s as [me w ts].
  destruct me as [sr ch ck pa st fr rec th mx lv], w.
  crunch.
  all: do 2 eexists; (split; [reflexivity |]); run_method; done.
Qed.

Lemma stop_recording_grows (patience : nat) : grows (stop_recording patience).
Proof.
  intros s. destruct (is_recording (self s)) eqn:Hrec.
  - destruct (stop_recording_parts patience s Hrec)
      as (s1 & s3 & s4 & H1 & H4 & Hstop & _ & _ & _ & P1 & P3).
    destruct (close_stream_cases s3) as (s4' & E4 & Hfr & _).
    assert (s4' = s4) by congruence. subst s4'.
    exists true, s4. split; [exact Hstop |]. rewrite Hfr. by etrans.
  - exists false, s. split; [| done].
    unfold stop_recording, bind, get_self. now rewrite Hrec.
Qed.

Lemma perform_grows (a : action) : not_a_start a -> grows (perform a).
Proof.
  destruct a; cbn [perform not_a_start]; intros Ha; try contradiction.
  - apply grows_bind; [apply pre_initialize_grows | intros; apply grows_ret].
  - apply grows_bind; [apply stop_recording_grows | intros; apply grows_ret].
  - apply grows_bind; [apply save_wav_grows | intros; apply grows_ret].
  - apply thread_step_grows.
Qed.

(** X16.  The frame sequence is append-only between two calls of
    [start_recording]: whatever calls of [pre_initialize], [stop_recording]
    and [save_wav] and whatever steps of reader threads are run, the
    frames held before are a prefix of the frames held after. *)
Theorem frames_append_only (acts : list action) (s : state) :
  Forall not_a_start acts ->
  frames (self s) `prefix_of` frames (self (run acts s)).
Proof.
  intros Hacts. revert s.
  induction Hacts as [| a acts Ha _ IH]; intros s; [done |].
  cbn [run fold_left].
  destruct (perform_grows a Ha s) as (u & s' & Hs & Hp).
  rewrite Hs. cbn [snd]. etrans; [exact Hp | apply IH].
Qed.

(** X15.  [stop_recording] on a session that has not captured anything yet,
    with an open stream that delivers [data]: the additional read is
    made, and the frames held afterwards start with [data]. *)
Theorem stop_recording_reads_when_no_frame (patience : nat) (s : state)
    (h : handle) (data : bytes) :
  is_recording (self s) = true ->
  frames (self s) = [] ->
  stream (self s) = Some h ->
  h ∈ open_streams (env s) ->
  oracle (env s) (cursor (env s)) = Good data ->
  exists s',
    stop_recording patience s = (Returns true, s') /\
    [data] `prefix_of` frames (self s').
Proof.
  intros Hrec Hfr Hst Hin Hread.
  destruct (stop_recording_parts patience s Hrec)
    as (s1 & s3 & s4 & H1 & H4 & Hstop & _ & _ & _ & _ & P3).
  destruct (close_stream_cases s3) as (s4' & E4 & Hfr4 & _).
  assert (s4' = s4) by congruence. subst s4'.
  exists s4. split; [exact Hstop |]. rewrite Hfr4.
  assert (Hs1 : frames (self s1) = [data]).
  { apply (bool_decide_eq_true_2 _) in Hin. clear -H1 Hrec Hfr Hst Hin Hread.
    destruct s as [me w ts].
    destruct me as [sr ch ck pa st fr rec th mx lv], w.
    cbn [self env is_recording frames stream open_streams oracle cursor] in *.
    subst. revert H1. run_thread. rewrite Hin. run_thread. rewrite Hread.
    run_thread. intros H1. now simplify_eq. }
  now rewrite <- Hs1.
Qed.

(** X17.  [save_wav] never raises, and whatever it returns it changes
    nothing but the file at the path given: the recorder with its frames,
    the threads, the streams and every other file are as before. *)
Theorem save_wav_touches_only_its_file (s : state) (file_path : string) :
  exists (b : bool) (s' : state),
    save_wav file_path s = (Returns b, s') /\
    self s' = self s /\
    threads s' = threads s /\
    open_streams (env s') = open_streams (env s) /\
    forall p, p <> file_path -> fs (env s') !! p = fs (env s) !! p.
Proof.
  destruct s as [me w ts].
  destruct me as [sr ch ck pa st fr rec th mx lv], w.
  crunch.
  all: do 2 eexists; (split; [reflexivity |]); run_method.
  all: repeat (split; [reflexivity |]).
  all: intros p Hp; rewrite ?lookup_insert_ne by congruence; reflexivity.
Qed.



(** X19.  [pre_initialize] leaves the session alone: whatever it returns,
    the frames, the recording flag, [self.stream], the time limit, the
    level callback, the reader threads and the files are as before. *)
Theorem pre_initialize_keeps_session (s : state) :
  exists (b : bool) (s' : state),
    pre_initialize s = (Returns b, s') /\
    frames (self s') = frames (self s) /\
    is_recording (self s') = is_recording (self s) /\
    stream (self s') = stream (self s) /\
    max_seconds (self s') = max_seconds (self s) /\
    level_callback (self s') = level_callback (self s) /\
    threads s' = threads s /\
    fs (env s') = fs (env s).
Proof.
  destruct s as [me w ts]. destruct me as [sr ch ck pa st fr rec th mx lv], w.
  repeat step. all: run_method.
  all: do 2 eexists; (split; [reflexivity |]); run_method.
  all: repeat split; reflexivity.
Qed.

(** X20.  When [pre_initialize] has opened its test stream and then returns
    [False] (the read, [stop_stream] or [close] raised), that stream is
    left open. *)
Theorem pre_initialize_failure_leaves_stream_open (s : state) :
  fst (pre_initialize s) = Returns false ->
  (PaOpen (channels (self s)) (sample_rate (self s)) (chunk (self s)), true)
    ∈ calls_since s (snd (pre_initialize s)) ->
  next_handle (env s) ∈ open_streams (env (snd (pre_initialize s))).
Proof.
  destruct s as [me w ts]. destruct me as [sr ch ck pa st fr rec th mx lv], w.
  unfold calls_since.
  repeat step. all: run_method.
  all: intros Hret Hopen; try discriminate Hret.
  all: rewrite <- ?app_assoc, drop_app_length in Hopen; cbn [app] in Hopen.
  all: try (apply elem_of_union_l, elem_of_singleton; reflexivity).
  all: exfalso; set_unfold; naive_solver.
Qed.


(** *** Concrete instances *)

Lemma stop_recording_closes_stream_witness :
  is_recording (self (looping ticking_recorder)) = true /\
  stream (self (looping ticking_recorder)) = Some 0 /\
  0 ∈ open_streams (env (looping ticking_recorder)) /\
  exists s',
    stop_recording 1 (looping ticking_recorder) = (Returns true, s') /\
    ((stream (self s') = None /\
      open_streams (env s')
        = open_streams (env (looping ticking_recorder)) ∖ {[0]})
     \/
     (stream (self s') = Some 0 /\
      open_streams (env s') = open_streams (env (looping ticking_recorder)) /\
      (last (trace (env s')) = Some (StopStream 0, false) \/
       last (trace (env s')) = Some (StreamClose 0, false)))).
Proof.
  split; [reflexivity |]. split; [reflexivity |].
  split; [refine (bool_decide_unpack _ _); vm_compute; exact I |].
  apply (stop_recording_closes_stream 1 (looping ticking_recorder) 0).
  - reflexivity.
  - reflexivity.
  - refine (bool_decide_unpack _ _). vm_compute. exact I.
Defined.

Lemma start_recording_outcome_witness :
  is_recording (self fresh_recorder) = false /\
  exists (b : bool) (s' : state),
    start_recording (Some 5%Z) (Some 7) None fresh_recorder
      = (Returns b, s') /\
    frames (self s') = [] /\
    is_recording (self s') = b /\
    level_callback (self s') = None /\
    (b = true ->
       calls_since fresh_recorder s' =
         (if pyaudio (self fresh_recorder) then [] else [(PyAudioNew, true)]) ++
         [(PaOpen (channels (self fresh_recorder))
             (sample_rate (self fresh_recorder))
             (chunk (self fresh_recorder)), true)] ++
         [(Invoke 7, true)] /\
       stream (self s') = Some (next_handle (env fresh_recorder)) /\
       open_streams (env s') =
         {[next_handle (env fresh_recorder)]}
           ∪ open_streams (env fresh_recorder) /\
       recording_thread (self s') = Some (length (threads fresh_recorder)) /\
       threads s' =
         threads fresh_recorder ++
           [{| th_pc := Entry; start_time := 0%Q; frame_count := 0 |}]) /\
    (b = false ->
       (exists c, last (calls_since fresh_recorder s') = Some (c, false)) /\
       threads s' = threads fresh_recorder).
Proof.
  split; [reflexivity |].
  apply (start_recording_outcome fresh_recorder (Some 5%Z) (Some 7) None).
  reflexivity.
Defined.

Lemma start_recording_callback_failure_keeps_stream_witness :
  is_recording (self third_call_fails) = false /\
  pyaudio (self third_call_fails) = true /\
  succeeds 0 third_call_fails = true /\
  succeeds 1 third_call_fails = false /\
  exists s',
    start_recording None (Some 7) None third_call_fails
      = (Returns false, s') /\
    is_recording (self s') = false /\
    threads s' = threads third_call_fails /\
    stream (self s') = Some (next_handle (env third_call_fails)) /\
    open_streams (env s') =
      {[next_handle (env third_call_fails)]}
        ∪ open_streams (env third_call_fails) /\
    last (trace (env s')) = Some (Invoke 7, false).
Proof.
  split; [reflexivity |]. split; [reflexivity |].
  split; [reflexivity |]. split; [reflexivity |].
  apply (start_recording_callback_failure_keeps_stream third_call_fails
           None 7 None); reflexivity.
Defined.


Lemma reader_reads_one_frame_witness :
  threads (looping ticking_recorder) !! 0
    = Some {| th_pc := Loop; start_time := 2%Q; frame_count := 0 |} /\
  is_recording (self (looping ticking_recorder)) = true /\
  (clock (env (looping ticking_recorder))
     (cursor (env (looping ticking_recorder))) - 2
   <= inject_Z (max_seconds (self (looping ticking_recorder))))%Q /\
  stream (self (looping ticking_recorder)) = Some 0 /\
  0 ∈ open_streams (env (looping ticking_recorder)) /\
  oracle (env (looping ticking_recorder))
    (S (cursor (env (looping ticking_recorder)))) = Good [x00; x00] /\
  exists s',
    thread_step 0 (looping ticking_recorder) = (Returns tt, s') /\
    frames (self s')
      = frames (self (looping ticking_recorder)) ++ [[x00; x00]] /\
    frame_count <$> threads s' !! 0 = Some 1 /\
    match level_callback (self (looping ticking_recorder)) with
    | Some f =>
        if (1 mod 2 =? 0)%nat then
          calls_since (looping ticking_recorder) s' =
            [(StreamRead 0 (chunk (self (looping ticking_recorder))), true);
             (InvokeLevel f [x00; x00],
              succeeds 2 (looping ticking_recorder))] /\
          is_recording (self s') = succeeds 2 (looping ticking_recorder) /\
          th_pc <$> threads s' !! 0
            = Some (if succeeds 2 (looping ticking_recorder)
                    then Loop else Done)
        else
          calls_since (looping ticking_recorder) s' =
            [(StreamRead 0 (chunk (self (looping ticking_recorder))), true)] /\
          is_recording (self s') = true /\
          th_pc <$> threads s' !! 0 = Some Loop
    | None =>
        calls_since (looping ticking_recorder) s' =
          [(StreamRead 0 (chunk (self (looping ticking_recorder))), true)] /\
        is_recording (self s') = true /\
        th_pc <$> threads s' !! 0 = Some Loop
    end.
Proof.
  split; [reflexivity |]. split; [reflexivity |].
  split; [apply Qle_bool_imp_le; reflexivity |].
  split; [reflexivity |].
  split; [refine (bool_decide_unpack _ _); vm_compute; exact I |].
  split; [reflexivity |].
  apply (reader_reads_one_frame (looping ticking_recorder) 0
           {| th_pc := Loop; start_time := 2%Q; frame_count := 0 |}
           0 [x00; x00]).
  - reflexivity.
  - reflexivity.
  - reflexivity.
  - apply Qle_bool_imp_le. reflexivity.
  - reflexivity.
  - refine (bool_decide_unpack _ _). vm_compute. exact I.
  - reflexivity.
Defined.

Lemma reader_stops_on_read_error_witness :
  threads (looping failing_recorder) !! 0
    = Some {| th_pc := Loop; start_time := 2%Q; frame_count := 0 |} /\
  is_recording (self (looping failing_recorder)) = true /\
  (clock (env (looping failing_recorder))
     (cursor (env (looping failing_recorder))) - 2
   <= inject_Z (max_seconds (self (looping failing_recorder))))%Q /\
  stream (self (looping failing_recorder)) = Some 0 /\
  0 ∈ open_streams (env (looping failing_recorder)) /\
  oracle (env (looping failing_recorder))
    (S (cursor (env (looping failing_recorder)))) = Bad /\
  exists s',
    thread_step 0 (looping failing_recorder) = (Returns tt, s') /\
    is_recording (self s') = false /\
    frames (self s') = frames (self (looping failing_recorder)) /\
    stream (self s') = Some 0 /\
    open_streams (env s') = open_streams (env (looping failing_recorder)) /\
    th_pc <$> threads s' !! 0 = Some Done.
Proof.
  split; [reflexivity |]. split; [reflexivity |].
  split; [apply Qle_bool_imp_le; reflexivity |].
  split; [reflexivity |].
  split; [refine (bool_decide_unpack _ _); vm_compute; exact I |].
  split; [reflexivity |].
  apply (reader_stops_on_read_error (looping failing_recorder) 0
           {| th_pc := Loop; start_time := 2%Q; frame_count := 0 |} 0).
  - reflexivity.
  - reflexivity.
  - reflexivity.
  - apply Qle_bool_imp_le. reflexivity.
  - reflexivity.
  - refine (bool_decide_unpack _ _). vm_compute. exact I.
  - reflexivity.
Defined.

Lemma frames_append_only_witness :
  Forall not_a_start [ThreadStep 0; PreInitialize; StopRecording 1;
                      SaveWav "out.wav"] /\
  frames (self (looping ticking_recorder))
    `prefix_of`
    frames (self (run [ThreadStep 0; PreInitialize; StopRecording 1;
                       SaveWav "out.wav"] (looping ticking_recorder))).
Proof.
  split.
  - repeat constructor.
  - apply (frames_append_only
             [ThreadStep 0; PreInitialize; StopRecording 1; SaveWav "out.wav"]
             (looping ticking_recorder)).
    repeat constructor.
Defined.

Lemma stop_recording_reads_when_no_frame_witness :
  is_recording (self (started ticking_recorder)) = true /\
  frames (self (started ticking_recorder)) = [] /\
  stream (self (started ticking_recorder)) = Some 0 /\
  0 ∈ open_streams (env (started ticking_recorder)) /\
  oracle (env (started ticking_recorder))
    (cursor (env (started ticking_recorder))) = Good [x00; x00] /\
  exists s',
    stop_recording 1 (started ticking_recorder) = (Returns true, s') /\
    [[x00; x00]] `prefix_of` frames (self s').
Proof.
  split; [reflexivity |]. split; [reflexivity |]. split; [reflexivity |].
  split; [refine (bool_decide_unpack _ _); vm_compute; exact I |].
  split; [reflexivity |].
  apply (stop_recording_reads_when_no_frame 1 (started ticking_recorder)
           0 [x00; x00]).
  - reflexivity.
  - reflexivity.
  - reflexivity.
  - refine (bool_decide_unpack _ _). vm_compute. exact I.
  - reflexivity.
Defined.


Lemma pre_initialize_failure_leaves_stream_open_witness :
  fst (pre_initialize third_call_fails) = Returns false /\
  (PaOpen (channels (self third_call_fails))
     (sample_rate (self third_call_fails))
     (chunk (self third_call_fails)), true)
    ∈ calls_since third_call_fails (snd (pre_initialize third_call_fails)) /\
  next_handle (env third_call_fails)
    ∈ open_streams (env (snd (pre_initialize third_call_fails))).
Proof.
  split; [reflexivity |].
  split; [vm_compute; apply list_elem_of_here |].
  apply (pre_initialize_failure_leaves_stream_open third_call_fails).
  - reflexivity.
  - vm_compute. apply list_elem_of_here.
Defined.

Lemma recording_implies_open_stream_witness :
  is_recording
    (self (run [StartRecording None None None; ThreadStep 0]
             (__init__ 16000 1 1024 (fresh_world all_good ticking_clock))))
    = true /\
  exists h,
    stream
      (self (run [StartRecording None None None; ThreadStep 0]
               (__init__ 16000 1 1024 (fresh_world all_good ticking_clock))))
      = Some h /\
    h ∈ open_streams
          (env (run [StartRecording None None None; ThreadStep 0]
                  (__init__ 16000 1 1024
                     (fresh_world all_good ticking_clock)))).
Proof.
  split; [reflexivity |].
  apply (recording_implies_open_stream 16000 1 1024 all_good ticking_clock
           [StartRecording None None None; ThreadStep 0]).
  reflexivity.
Defined.

End RecorderClaims.

(** ** A whole session *)

Section Session.

Ltac run_method :=
  cbv beta iota zeta delta
    [start_recording pre_initialize stop_recording save_wav __init__
     read_if_no_frames join_recording_thread close_stream
     PyAudio_new pa_open stream_read stop_stream stream_close invoke
     invoke_level spawn_record wave_open wave_close writeframes
     setnchannels setsampwidth setframerate is_open
     bind ret raise try_except get get_self modify assign external
     with_self with_env with_threads self env threads
     pyaudio stream frames is_recording max_seconds level_callback
     recording_thread sample_rate channels chunk
     open_streams next_handle fs oracle clock cursor trace
     set_pyaudio set_stream set_frames set_is_recording
     set_recording_thread set_max_seconds set_level_callback
     set_open_streams set_next_handle set_fs set_cursor set_trace
     fst snd negb andb orb succeeds is_good open_raises
     thread_step record_entry record_iteration record_finally
     get_thread set_thread set_pc append_frame read_self_stream time_time
     th_pc start_time frame_count thread_join perform capturing truthy] in *.

Lemma just_opened (h : handle) (streams : gset handle) :
  bool_decide (h ∈ {[h]} ∪ streams) = true.
Proof.
  apply bool_decide_eq_true_2, elem_of_union_l, elem_of_singleton.
  reflexivity.
Qed.

Lemma lookup_last_thread (ts : list thread) (t : thread) :
  (ts ++ [t]) !! length ts = Some t.
Proof. now apply list_lookup_middle. Qed.

Lemma insert_last_thread (ts : list thread) (t t' : thread) :
  <[length ts := t']> (ts ++ [t]) = ts ++ [t'].
Proof.
  rewrite insert_app_r_alt by lia. now rewrite Nat.sub_diag.
Qed.

Lemma session_frames_S (d : nat -> bytes) (c n : nat) :
  session_frames d c (S n) = session_frames d c n ++ [d (c + 2 + 2 * n)].
Proof.
  unfold session_frames. rewrite seq_S, map_app. reflexivity.
Qed.

Lemma capturing_iteration (s : state) (d : nat -> bytes) (k : nat)
    (tr : list event) :
  (forall i, oracle (env s) i = Good (d i)) ->
  (forall i j,
     (clock (env s) j - clock (env s) i
        <= inject_Z (max_seconds (self s)))%Q) ->
  exists tr',
    thread_step (length (threads s)) (capturing s d k tr)
    = (Returns tt, capturing s d (S k) tr').
Proof.
  intros Hdev Htime.
  destruct s as [me w ts]. destruct me as [sr ch ck pa st fr rec th mx lv], w.
  cbn [self env oracle clock max_seconds] in *.
  pose proof just_opened as Hopen.
  eexists.
  repeat (progress
            (run_method;
             rewrite ?lookup_last_thread, ?insert_last_thread,
               ?(exceeds_within _ _ (Htime _ _)), ?Hdev, ?Hopen;
             cbv beta iota delta [from_option Datatypes.id])).
  rewrite (session_frames_S d cursor0 (S k)).
  replace (cursor0 + 2 + 2 * S k) with (S (cursor0 + 3 + 2 * k)) by lia.
  replace (cursor0 + 3 + 2 * S k) with (S (S (cursor0 + 3 + 2 * k))) by lia.
  reflexivity.
Qed.

Lemma capturing_start (s : state) (d : nat -> bytes) :
  is_recording (self s) = false ->
  pyaudio (self s) = true ->
  (forall i, oracle (env s) i = Good (d i)) ->
  exists tr,
    run [StartRecording None None None; ThreadStep (length (threads s))] s
    = capturing s d 0 tr.
Proof.
  intros Hrec Hpa Hdev.
  destruct s as [me w ts]. destruct me as [sr ch ck pa st fr rec th mx lv], w.
  cbn [self env oracle is_recording pyaudio] in *. subst rec pa.
  pose proof just_opened as Hopen.
  eexists. cbn [run fold_left].
  repeat (progress
            (run_method;
             rewrite ?lookup_last_thread, ?insert_last_thread,
               ?Hdev, ?Hopen;
             cbv beta iota delta [from_option Datatypes.id])).
  unfold session_frames. cbn [seq map app].
  replace (cursor0 + 2 + 2 * 0) with (S (S cursor0)) by lia.
  replace (cursor0 + 3 + 2 * 0) with (S (S (S cursor0))) by lia.
  reflexivity.
Qed.

Lemma capturing_loop (s : state) (d : nat -> bytes) (n k : nat)
    (tr : list event) :
  (forall i, oracle (env s) i = Good (d i)) ->
  (forall i j,
     (clock (env s) j - clock (env s) i
        <= inject_Z (max_seconds (self s)))%Q) ->
  exists tr',
    run (repeat (ThreadStep (length (threads s))) n) (capturing s d k tr)
    = capturing s d (n + k) tr'.
Proof.
  intros Hdev Htime. revert k tr.
  induction n as [| n IH]; intros k tr; [exists tr; reflexivity |].
  cbn [repeat run fold_left perform].
  destruct (capturing_iteration s d k tr Hdev Htime) as (tr1 & ->).
  cbn [snd]. destruct (IH (S k) tr1) as (tr2 & Htr2).
  exists tr2. unfold run in Htr2. rewrite Htr2. f_equal. lia.
Qed.

Lemma capturing_end (s : state) (d : nat -> bytes) (n : nat)
    (tr : list event) (file_path : string) :
  (forall i, oracle (env s) i = Good (d i)) ->
  (1 <= channels (self s))%Z ->
  (0 < sample_rate (self s))%Z ->
  header_fits (channels (self s)) 2 (sample_rate (self s))
    (Z.of_nat (length (concat (session_frames d (cursor (env s)) (S n)))))
    = true ->
  frames
    (self (run [StopRecording 1; SaveWav file_path] (capturing s d n tr)))
    = session_frames d (cursor (env s)) (S n) /\
  is_recording
    (self (run [StopRecording 1; SaveWav file_path] (capturing s d n tr)))
    = false /\
  stream
    (self (run [StopRecording 1; SaveWav file_path] (capturing s d n tr)))
    = None /\
  (next_handle (env s)
     ∉ open_streams
         (env (run [StopRecording 1; SaveWav file_path]
                 (capturing s d n tr)))) /\
  fs (env (run [StopRecording 1; SaveWav file_path] (capturing s d n tr)))
    !! file_path =
    Some (Wav {| wav_nchannels := channels (self s);
                 wav_sampwidth := 2;
                 wav_framerate := sample_rate (self s);
                 wav_payload :=
                   concat (session_frames d (cursor (env s)) (S n)) |}).
Proof.
  intros Hdev Hch Hsr Hfits.
  destruct s as [me w ts]. destruct me as [sr ch ck pa st fr rec th mx lv], w.
  cbn [self env oracle channels sample_rate cursor] in *.
  pose proof just_opened as Hopen.
  assert (Hch' : (ch <? 1)%Z = false) by (apply Z.ltb_ge; lia).
  assert (Hsr' : (sr <=? 0)%Z = false) by (apply Z.leb_gt; lia).
  unfold capturing.
  cbn [self env threads cursor next_handle open_streams fs oracle clock].
  remember (session_frames d cursor0 (S n)) as F eqn:HF.
  destruct F as [| f0 F'];
    [unfold session_frames in HF; cbn [seq map] in HF; discriminate HF |].
  cbn [run fold_left perform]. unfold save_wav.
  change (setsampwidth 2) with (@ret Z 2%Z).
  repeat (progress
            (run_method;
             rewrite ?lookup_last_thread, ?insert_last_thread,
               ?Hdev, ?Hopen, ?Hch', ?Hsr', ?Hfits;
             cbv beta iota delta [from_option Datatypes.id])).
  repeat (split; [reflexivity |]).
  split.
  - apply not_elem_of_difference. right. apply elem_of_singleton. reflexivity.
  - rewrite insert_insert_eq. apply lookup_insert_eq.
Qed.

(** X21.  A whole session on a working device, within the time limit: the
    recording is started, the reader makes its first read and [n]
    iterations, the recording is stopped and saved.  The frames held are
    the [n + 1] buffers the device delivered, in the order of the reads;
    the flag is clear, the stream is closed and [self.stream] reset; and
    the file is the WAV container of the configured format whose payload is
    these buffers one after the other. *)
Theorem session_saves_what_the_device_delivered (s : state)
    (d : nat -> bytes) (n : nat) (file_path : string) :
  is_recording (self s) = false ->
  pyaudio (self s) = true ->
  (forall i, oracle (env s) i = Good (d i)) ->
  (forall i j,
     (clock (env s) j - clock (env s) i
        <= inject_Z (max_seconds (self s)))%Q) ->
  (1 <= channels (self s))%Z ->
  (0 < sample_rate (self s))%Z ->
  header_fits (channels (self s)) 2 (sample_rate (self s))
    (Z.of_nat (length (concat (session_frames d (cursor (env s)) (S n)))))
    = true ->
  frames (self (run (session (length (threads s)) n file_path) s))
    = session_frames d (cursor (env s)) (S n) /\
  is_recording (self (run (session (length (threads s)) n file_path) s))
    = false /\
  stream (self (run (session (length (threads s)) n file_path) s)) = None /\
  (next_handle (env s)
     ∉ open_streams
         (env (run (session (length (threads s)) n file_path) s))) /\
  fs (env (run (session (length (threads s)) n file_path) s)) !! file_path =
    Some (Wav {| wav_nchannels := channels (self s);
                 wav_sampwidth := 2;
                 wav_framerate := sample_rate (self s);
                 wav_payload :=
                   concat (session_frames d (cursor (env s)) (S n)) |}).
Proof.
  intros Hrec Hpa Hdev Htime Hch Hsr Hfits.
  assert (Hsplit :
    session (length (threads s)) n file_path =
    [StartRecording None None None; ThreadStep (length (threads s))] ++
    repeat (ThreadStep (length (threads s))) n ++
    [StopRecording 1; SaveWav file_path]) by reflexivity.
  rewrite Hsplit. unfold run. rewrite !fold_left_app. fold run.
  destruct (capturing_start s d Hrec Hpa Hdev) as (tr & Hstart).
  unfold run in Hstart. rewrite Hstart.
  destruct (capturing_loop s d n 0 tr Hdev Htime) as (tr' & Hloop).
  unfold run in Hloop. rewrite Hloop. rewrite Nat.add_0_r.
  exact (capturing_end s d n tr' file_path Hdev Hch Hsr Hfits).
Qed.

Lemma session_saves_what_the_device_delivered_witness :
  is_recording (self numbered_recorder) = false /\
  pyaudio (self numbered_recorder) = true /\
  (forall i, oracle (env numbered_recorder) i = Good (numbered i)) /\
  (forall i j,
     (clock (env numbered_recorder) j - clock (env numbered_recorder) i
        <= inject_Z (max_seconds (self numbered_recorder)))%Q) /\
  (1 <= channels (self numbered_recorder))%Z /\
  (0 < sample_rate (self numbered_recorder))%Z /\
  header_fits (channels (self numbered_recorder)) 2
    (sample_rate (self numbered_recorder))
    (Z.of_nat
       (length (concat (session_frames numbered
                          (cursor (env numbered_recorder)) 3))))
    = true /\
  frames (self (run (session (length (threads numbered_recorder)) 2
                       "out.wav") numbered_recorder))
    = session_frames numbered (cursor (env numbered_recorder)) 3 /\
  is_recording (self (run (session (length (threads numbered_recorder)) 2
                             "out.wav") numbered_recorder))
    = false /\
  stream (self (run (session (length (threads numbered_recorder)) 2
                       "out.wav") numbered_recorder)) = None /\
  (next_handle (env numbered_recorder)
     ∉ open_streams
         (env (run (session (length (threads numbered_recorder)) 2
                      "out.wav") numbered_recorder))) /\
  fs (env (run (session (length (threads numbered_recorder)) 2 "out.wav")
             numbered_recorder)) !! "out.wav" =
    Some (Wav {| wav_nchannels := channels (self numbered_recorder);
                 wav_sampwidth := 2;
                 wav_framerate := sample_rate (self numbered_recorder);
                 wav_payload :=
                   concat (session_frames numbered
                             (cursor (env numbered_recorder)) 3) |}).
Proof.
  split; [reflexivity |]. split; [reflexivity |].
  split; [intros i; reflexivity |].
  split; [intros i j; apply Qle_bool_imp_le; reflexivity |].
  split; [vm_compute; discriminate |]. split; [reflexivity |].
  split; [reflexivity |].
  apply (session_saves_what_the_device_delivered numbered_recorder numbered
           2 "out.wav").
  - reflexivity.
  - reflexivity.
  - intros i. reflexivity.
  - intros i j. apply Qle_bool_imp_le. reflexivity.
  - vm_compute. discriminate.
  - reflexivity.
  - reflexivity.
Defined.

(** The session of the numbered device: the reads are numbers 3, 5 and 7
    of the script. *)
Example numbered_session_payload :
  fs (env (run (session 0 2 "out.wav") numbered_recorder)) !! "out.wav" =
    Some (Wav {| wav_nchannels := 1; wav_sampwidth := 2;
                 wav_framerate := 16000;
                 wav_payload := [x03; x00; x05; x00; x07; x00] |}).
Proof. vm_compute. reflexivity. Qed.

End Session.

(** ** Further properties of the level meter *)

Section LevelExtras.

Local Open Scope Z_scope.

(** Induction on a buffer two bytes at a time. *)
Lemma bytes_pair_ind (P : bytes -> Prop) :
  P [] -> (forall b, P [b]) ->
  (forall lo hi rest, P rest -> P (lo :: hi :: rest)) ->
  forall data, P data.
Proof.
  intros Hnil Hone Hstep.
  assert (H : forall data, P data /\ forall b, P (b :: data)).
  { induction data as [| b data [IH1 IH2]]; [split; auto |].
    split; [apply IH2 | intros b'; apply Hstep, IH1]. }
  intros data. apply H.
Qed.

(** [np.frombuffer] fails exactly on the buffers of odd size, and decodes
    one sample per pair of bytes of the others. *)
Lemma frombuffer_by_parity (data : bytes) :
  if Nat.odd (length data) then frombuffer data = None
  else exists a, frombuffer data = Some a /\
                 (length data = 2 * length a)%nat.
Proof.
  induction data as [| b | lo hi rest IH] using bytes_pair_ind.
  - exists []. split; reflexivity.
  - reflexivity.
  - cbn [length frombuffer].
    change (Nat.odd (S (S (length rest)))) with (Nat.odd (length rest)).
    destruct (Nat.odd (length rest)).
    + now rewrite IH.
    + destruct IH as (a & -> & Hlen).
      exists (int16_le lo hi :: a). split; [reflexivity |].
      cbn [length]. lia.
Qed.

Lemma zsum_squares_nonneg (a : list Z) : 0 <= zsum (map (fun x => x * x) a).
Proof.
  induction a as [| x a IH]; [reflexivity |].
  cbn [map zsum fold_right]. fold (zsum (map (fun x => x * x) a)). nia.
Qed.

(** X1.  For every buffer the level is [0.0] or [1.0], and it is [1.0]
    exactly when the buffer decodes (its size is even) and either holds no
    sample or has 16-bit reduced squares that sum to a negative number. *)
Theorem level_is_zero_or_one (data : bytes) :
  (_calculate_audio_level data = Fin 0 \/
   _calculate_audio_level data = Fin 1) /\
  (_calculate_audio_level data = Fin 1 <->
   exists a, frombuffer data = Some a /\
             (a = [] \/ zsum (np_square a) < 0)).
Proof.
  assert (Hne : Fin 0 <> Fin 1) by (intros H; injection H; lra).
  rewrite level_by_cases.
  destruct (frombuffer data) as [[| x a] |].
  - split; [now right |]. split; [intros _; exists []; auto | reflexivity].
  - destruct (Z.ltb_spec (zsum (np_square (x :: a))) 0) as [Hneg | Hpos].
    + split; [now right |]. split; [| reflexivity].
      intros _. exists (x :: a). auto.
    + split; [now left |]. split; [intros H; now apply Hne in H |].
      intros (a' & Ha' & [-> | Hneg]); [discriminate |].
      injection Ha' as <-. lia.
  - split; [now left |]. split; [intros H; now apply Hne in H |].
    intros (a' & Ha' & _). discriminate.
Qed.

(** X2.  A buffer of odd size, which [np.frombuffer] refuses, has level
    [0.0]: the exception does not leave [_calculate_audio_level]. *)
Theorem level_of_odd_sized_buffer (data : bytes) :
  Nat.odd (length data) = true ->
  _calculate_audio_level data = Fin 0.
Proof.
  intros Hodd. pose proof (frombuffer_by_parity data) as H.
  rewrite Hodd in H. unfold _calculate_audio_level. now rewrite H.
Qed.

Lemma level_of_odd_sized_buffer_witness :
  Nat.odd (length [xff; x7f; x01]) = true /\
  _calculate_audio_level [xff; x7f; x01] = Fin 0.
Proof.
  split.
  - reflexivity.
  - apply (level_of_odd_sized_buffer [xff; x7f; x01]). reflexivity.
Defined.

(** X3.  A frame with at least one sample whose samples all lie within
    [-181 .. 181] (no square exceeds 16 bits) has level [0.0], which is
    also the level of the formula on the RMS of the samples. *)
Theorem level_of_quiet_frame (data : bytes) (a : list Z) :
  frombuffer data = Some a ->
  a <> [] ->
  Forall (fun x => -181 <= x <= 181) a ->
  _calculate_audio_level data = Fin 0 /\ spec_level data = Fin 0.
Proof.
  intros Hbuf Hne Ha.
  assert (Hlevel : _calculate_audio_level data = Fin 0).
  { rewrite level_by_cases, Hbuf.
    destruct a as [| x a]; [congruence |].
    rewrite (np_square_without_overflow _ Ha).
    pose proof (zsum_squares_nonneg (x :: a)).
    destruct (Z.ltb_spec (zsum (map (fun x => x * x) (x :: a))) 0);
      [lia | reflexivity]. }
  split; [exact Hlevel |].
  now rewrite <- (level_agrees_without_overflow data a Hbuf Ha).
Qed.

Lemma level_of_quiet_frame_witness :
  frombuffer [x64; x00; x4b; xff] = Some [100; -181] /\
  [100; -181] <> [] /\
  Forall (fun x => -181 <= x <= 181) [100; -181] /\
  _calculate_audio_level [x64; x00; x4b; xff] = Fin 0 /\
  spec_level [x64; x00; x4b; xff] = Fin 0.
Proof.
  split; [reflexivity |]. split; [discriminate |].
  split; [repeat constructor; lia |].
  apply (level_of_quiet_frame [x64; x00; x4b; xff] [100; -181]).
  - reflexivity.
  - discriminate.
  - repeat constructor; lia.
Defined.

End LevelExtras.

Section CurveExtras.

Local Open Scope R_scope.

(** X4.  The mapping of lines 276-286 sends every RMS value to a level
    between [0.0] and [1.0]. *)
Theorem level_of_rms_in_unit_interval (r : R) :
  exists v, level_of_rms (Fin r) = Fin v /\ 0 <= v <= 1.
Proof.
  unfold level_of_rms, py_min, fdiv, fsub, flt, fpow, noise_threshold.
  destruct (Rlt_dec r 300) as [Hq | Hq]; [exists 0; split; [reflexivity | lra] |].
  assert (Hd : 0 < / (32768 - 300)) by (apply Rinv_0_lt_compat; lra).
  assert (Hg : 0 <= (r - 300) / (32768 - 300))
    by (unfold Rdiv; apply Rmult_le_pos; lra).
  destruct (Rlt_dec ((r - 300) / (32768 - 300)) 1) as [Hlt | Hge].
  - destruct (Rlt_dec 0 ((r - 300) / (32768 - 300))) as [Hpos | Hz].
    + eexists. split; [reflexivity |]. split.
      * left. unfold Rpower. apply exp_pos.
      * rewrite <- (Rpower_one (7 / 10)).
        apply Rle_Rpower_l; [lra | split; [exact Hpos | lra]].
    + destruct (Rlt_dec ((r - 300) / (32768 - 300)) 0); [lra |].
      exists 0. split; [reflexivity | lra].
  - destruct (Rlt_dec 0 1) as [_ | H]; [| lra].
    exists (Rpower 1 (7 / 10)). split; [reflexivity |].
    rewrite Rpower_one. lra.
Qed.

Lemma level_of_rms_monotone_witness :
  300 <= 1000 <= 20000 /\
  fle (level_of_rms (Fin 1000)) (level_of_rms (Fin 20000)).
Proof.
  split.
  - lra.
  - apply (level_of_rms_monotone 1000 20000). lra.
Defined.

End CurveExtras.
